(** * KRYV-MCP host agent (oracle-agent.py): a shallow embedding and its
    verified properties.

    The agent is a single Python file.  Its functions are embedded here as
    Rocq functions over an explicit [host] (everything the operating system,
    the network and the Python libraries answer) and an explicit [world]
    (the cache files, the wall clock, the registered jobs and the trace of
    observable events).  Fallible code returns [res]; effectful code lives in
    the small state-and-exception monad [M]. *)

From stdpp Require Import base list strings gmap.
From Stdlib Require Import ZArith NArith Ascii String Sorting.Sorted Permutation Lia.

Open Scope string_scope.
Open Scope Z_scope.

(** ** Python values *)

Module Py.

(** The classes of exceptions the agent's code and its libraries raise.
    All of them derive from [Exception]; [RequestException] is the base
    class of everything the [requests] transport raises. *)
Inductive exn : Type :=
  | OSError (errno : string)
  | PermissionError
  | FileNotFoundError
  | ValueError
  | ImportError
  | AttributeError
  | JSONDecodeError
  | UnicodeError
  | TimeoutExpired
  | RequestException (kind : string).

Definition is_RequestException (e : exn) : bool :=
  match e with RequestException _ => true | _ => false end.

Definition is_PermissionError (e : exn) : bool :=
  match e with PermissionError => true | _ => false end.

Definition is_ImportError (e : exn) : bool :=
  match e with ImportError => true | _ => false end.

(** Outcome of a Python expression: a value, or a raised exception. *)
Inductive res (A : Type) : Type :=
  | Ok (a : A)
  | Raise (e : exn).
Arguments Ok {A} a.
Arguments Raise {A} e.

Definition is_Ok {A} (r : res A) : bool :=
  match r with Ok _ => true | Raise _ => false end.

#[global] Instance res_ret : MRet res := @Ok.
#[global] Instance res_bind : MBind res := fun A B k r =>
  match r with Ok a => k a | Raise e => Raise e end.

(** [list.sort] is stable.  [sort_by after l] is the stable insertion sort
    in which [after x y] says that [x] has to be placed behind [y]; an
    element is put in front of the first one it need not follow, so equal
    keys keep the order they had. *)
Fixpoint insert_by {A} (after : A -> A -> bool) (x : A) (l : list A) : list A :=
  match l with
  | [] => [x]
  | y :: l' => if after x y then y :: insert_by after x l' else x :: l
  end.

Definition sort_by {A} (after : A -> A -> bool) (l : list A) : list A :=
  foldr (insert_by after) [] l.

(** [l.sort(key=k, reverse=True)] with string keys. *)
Definition sort_desc {A} (key : A -> string) (l : list A) : list A :=
  sort_by (fun x y => String.ltb (key x) (key y)) l.

(** JSON-compatible values.  A Python [float] is kept as a decimal
    [mant * 10^exp]; a [dict] is an association list in insertion order
    (Python dicts are ordered and [json.dump] writes them in that order). *)
#[local] Unset Elimination Schemes.
Inductive json : Type :=
  | JNull
  | JBool (b : bool)
  | JInt (z : Z)
  | JDec (mant : Z) (exp : Z)
  | JStr (s : string)
  | JList (l : list json)
  | JObj (kv : list (string * json)).
#[local] Set Elimination Schemes.

Definition dict : Type := list (string * json).

Fixpoint dict_get (k : string) (d : dict) : option json :=
  match d with
  | [] => None
  | (k', v) :: d' => if String.eqb k k' then Some v else dict_get k d'
  end.

(** [d[k] = v]: an existing key keeps its position, a new key is appended. *)
Fixpoint dict_set (k : string) (v : json) (d : dict) : dict :=
  match d with
  | [] => [(k, v)]
  | (k', v') :: d' =>
      if String.eqb k k' then (k', v) :: d' else (k', v') :: dict_set k v d'
  end.

Fixpoint dict_del (k : string) (d : dict) : dict :=
  match d with
  | [] => []
  | (k', v') :: d' =>
      if String.eqb k k' then dict_del k d' else (k', v') :: dict_del k d'
  end.

(** [data.get(k, default)] on the result of [res.json()]: only a JSON object
    has a [get] method, any other JSON value raises [AttributeError]. *)
Definition json_get (j : json) (k : string) (default : json) : res json :=
  match j with
  | JObj kv => Ok (match dict_get k kv with Some v => v | None => default end)
  | _ => Raise AttributeError
  end.

(** *** Strings.  Characters are the 8-bit code points. *)

Definition lower_char (c : ascii) : ascii :=
  let n := nat_of_ascii c in
  if ((65 <=? n) && (n <=? 90))%nat then ascii_of_nat (n + 32) else c.

Fixpoint lower (s : string) : string :=
  match s with
  | EmptyString => EmptyString
  | String c s' => String (lower_char c) (lower s')
  end.

(** [str.isspace] on one character (code points below 256). *)
Definition isspace (c : ascii) : bool :=
  let n := nat_of_ascii c in
  (((9 <=? n) && (n <=? 13)) || ((28 <=? n) && (n <=? 32))
   || (n =? 133) || (n =? 160))%nat.

Fixpoint lstrip (s : string) : string :=
  match s with
  | EmptyString => EmptyString
  | String c s' => if isspace c then lstrip s' else s
  end.

(** [rstrip]: drop the trailing run of whitespace. *)
Fixpoint rstrip (s : string) : string :=
  match s with
  | EmptyString => EmptyString
  | String c s' =>
      match rstrip s' with
      | EmptyString => if isspace c then EmptyString else String c EmptyString
      | r => String c r
      end
  end.

Definition strip (s : string) : string := rstrip (lstrip s).

(** [s[:n]] *)
Definition slice_to (n : nat) (s : string) : string := String.substring 0 n s.

(** [s.split()]: the maximal runs of non-whitespace characters, in order.
    [cur] is the word being read. *)
Fixpoint split_from (cur : string) (s : string) : list string :=
  match s with
  | EmptyString => match cur with EmptyString => [] | _ => [cur] end
  | String c s' =>
      if isspace c then
        match cur with
        | EmptyString => split_from EmptyString s'
        | _ => cur :: split_from EmptyString s'
        end
      else split_from (cur ++ String c EmptyString) s'
  end.

Definition split (s : string) : list string := split_from EmptyString s.

(** [s.rfind('.')]: index of the last dot, if any. *)
Fixpoint rfind_dot (s : string) : option nat :=
  match s with
  | EmptyString => None
  | String c s' =>
      match rfind_dot s' with
      | Some i => Some (S i)
      | None => if Ascii.eqb c "."%char then Some 0%nat else None
      end
  end.

Fixpoint drop_str (n : nat) (s : string) : string :=
  match n, s with
  | O, _ => s
  | S n', String _ s' => drop_str n' s'
  | S _, EmptyString => EmptyString
  end.

(** [PurePath.suffix]: from the last dot of the name, unless the dot is the
    first or the last character. *)
Definition suffix (name : string) : string :=
  match rfind_dot name with
  | Some i =>
      if ((0 <? i) && (i <? String.length name - 1))%nat
      then drop_str i name else ""
  | None => ""
  end.

End Py.
Export Py.

(** ** Calendar time: [datetime] objects and their ISO-8601 text *)

Module DateTime.

(** A naive [datetime.datetime]: the seven calendar fields. *)
Record datetime : Type := mkDatetime {
  year : N; month : N; day : N;
  hour : N; minute : N; second : N; microsecond : N
}.

Definition is_leap (y : N) : bool :=
  (((y mod 4 =? 0) && negb (y mod 100 =? 0)) || (y mod 400 =? 0))%N.

Definition days_in_month (y m : N) : N :=
  (if m =? 2 then (if is_leap y then 29 else 28)
   else if (m =? 4) || (m =? 6) || (m =? 9) || (m =? 11) then 30 else 31)%N.

(** The range invariant every Python [datetime] object satisfies
    (MINYEAR = 1, MAXYEAR = 9999). *)
Definition dt_valid (t : datetime) : bool :=
  ((1 <=? year t) && (year t <=? 9999)
   && (1 <=? month t) && (month t <=? 12)
   && (1 <=? day t) && (day t <=? days_in_month (year t) (month t))
   && (hour t <? 24) && (minute t <? 60) && (second t <? 60)
   && (microsecond t <? 1000000))%N.

(** Chronological order of naive datetimes: lexicographic on the fields. *)
Definition dt_fields (t : datetime) : list N :=
  [year t; month t; day t; hour t; minute t; second t; microsecond t].

Fixpoint lex_compare (a b : list N) : comparison :=
  match a, b with
  | [], [] => Eq
  | [], _ :: _ => Lt
  | _ :: _, [] => Gt
  | x :: a', y :: b' =>
      match (x ?= y)%N with Eq => lex_compare a' b' | c => c end
  end.

Definition dt_compare (a b : datetime) : comparison :=
  lex_compare (dt_fields a) (dt_fields b).

Definition dt_le (a b : datetime) : Prop := dt_compare a b <> Gt.
Definition dt_lt (a b : datetime) : Prop := dt_compare a b = Lt.

(** [dec w n]: the [w] low-order decimal digits of [n], most significant
    first - the text of ["%0wd" % n] whenever [n < 10^w]. *)
Definition digit_char (n : N) : ascii := ascii_of_N (48 + n mod 10).

Fixpoint dec (w : nat) (n : N) : string :=
  match w with
  | O => EmptyString
  | S w' => String (digit_char (n / 10 ^ N.of_nat w')) (dec w' n)
  end.

(** [datetime.isoformat()]: "YYYY-MM-DDTHH:MM:SS", followed by ".ffffff"
    only when the microsecond field is not zero. *)
Definition isoformat (t : datetime) : string :=
  dec 4 (year t) ++ "-" ++ dec 2 (month t) ++ "-" ++ dec 2 (day t) ++ "T"
  ++ dec 2 (hour t) ++ ":" ++ dec 2 (minute t) ++ ":" ++ dec 2 (second t)
  ++ (if (microsecond t =? 0)%N then "" else "." ++ dec 6 (microsecond t)).

(** Reading the text back ([datetime.fromisoformat] on the two shapes
    [isoformat] produces). *)
Definition digit_val (c : ascii) : option N :=
  let n := N_of_ascii c in
  if ((48 <=? n) && (n <=? 57))%N then Some (n - 48)%N else None.

Fixpoint read_dec (w : nat) (acc : N) (s : string) : option (N * string) :=
  match w with
  | O => Some (acc, s)
  | S w' =>
      match s with
      | EmptyString => None
      | String c s' =>
          match digit_val c with
          | Some d => read_dec w' (acc * 10 + d)%N s'
          | None => None
          end
      end
  end.

Definition expect (c : ascii) (s : string) : option string :=
  match s with
  | String c' s' => if Ascii.eqb c c' then Some s' else None
  | EmptyString => None
  end.

Definition fromisoformat (s : string) : option datetime :=
  '(y, s) ← read_dec 4 0 s; s ← expect "-" s;
  '(mo, s) ← read_dec 2 0 s; s ← expect "-" s;
  '(d, s) ← read_dec 2 0 s; s ← expect "T" s;
  '(h, s) ← read_dec 2 0 s; s ← expect ":" s;
  '(mi, s) ← read_dec 2 0 s; s ← expect ":" s;
  '(se, s) ← read_dec 2 0 s;
  '(us, s) ← match s with
             | EmptyString => Some (0%N, EmptyString)
             | _ => s ← expect "." s; read_dec 6 0 s
             end;
  match s with
  | EmptyString =>
      let t := mkDatetime y mo d h mi se us in
      if dt_valid t then Some t else None
  | _ => None
  end.

End DateTime.
Export DateTime.

(** ** The outside world *)

Module World.

(** A [pathlib.Path]: the components of an absolute POSIX path. *)
Definition path : Type := list string.

Fixpoint join (sep : string) (l : list string) : string :=
  match l with
  | [] => ""
  | [x] => x
  | x :: l' => x ++ sep ++ join sep l'
  end.

(** [str(p)] for an absolute path and for a relative one. *)
Definition str_abs (p : path) : string := "/" ++ join "/" p.
Definition str_rel (p : path) : string :=
  match p with [] => "." | _ => join "/" p end.

Fixpoint strip_prefix (pre p : path) : option path :=
  match pre, p with
  | [], _ => Some p
  | x :: pre', y :: p' => if String.eqb x y then strip_prefix pre' p' else None
  | _ :: _, [] => None
  end.

(** [p.relative_to(base)] raises [ValueError] when [p] is not below [base]. *)
Definition relative_to (p base : path) : res path :=
  match strip_prefix base p with
  | Some r => Ok r
  | None => Raise ValueError
  end.

(** What [os.stat] reports for a directory entry.  Times are POSIX time in
    microseconds. *)
Record stat_result : Type := mkStat {
  st_is_file : bool;
  st_size : N;
  st_mtime : Z
}.

(** One path produced by [d.rglob("*")]: its components below [d], the
    outcome of [stat] on it and the outcome of reading it as text. *)
Record entry : Type := mkEntry {
  e_rel : path;
  e_stat : res stat_result;
  e_text : res string
}.

(** A [requests.Response]: the status code and what [res.json()] gives. *)
Record response : Type := mkResponse {
  status_code : Z;
  body_json : res json
}.

(** [Response.ok]: [raise_for_status()] does not raise, that is, the status
    is not in the 4xx or 5xx class. *)
Definition ok (r : response) : bool :=
  negb ((400 <=? status_code r) && (status_code r <? 600)).

(** How writing a file ends: [open] fails, or the file is opened (and
    truncated) and the write fails, or all of it is written. *)
Inductive write_outcome : Type :=
  | WriteOk
  | OpenFails (e : exn)
  | DumpFails (e : exn).

(** Everything the agent asks of its surroundings.  Every answer may depend
    on the time of asking (the first argument, POSIX microseconds). *)
Record host : Type := mkHost {
  environ : gmap string string;
  home : path;
  utc_of : Z -> datetime;
  local_of : Z -> datetime;
  fs_write : Z -> path -> write_outcome;
  fs_exists : Z -> path -> bool;
  fs_rglob : Z -> path -> list entry;
  http_post : Z -> string -> json -> res response;
  http_get : Z -> string -> res response;
  psutil : Z -> option (json * json * json);
  platform_system : string;
  platform_node : string;
  xclip : Z -> res (Z * string)
}.

(** The callables handed to the scheduler. *)
Inductive job_fun : Type := JobQuickSync | JobFullSync | JobCheckServer.

(** A [schedule.Job] with unit minutes; [j_id] stands for the identity of
    the job object (its registration number). *)
Record job : Type := mkJob {
  j_id : nat;
  j_interval : Z;
  j_func : job_fun;
  j_next_run : Z
}.

(** What a job function gives back to [schedule]; [RCancel] stands for
    [schedule.CancelJob]. *)
Inductive job_ret : Type := RNone | RBool (b : bool) | RCancel.

(** Lines printed by [log], with the values interpolated into them. *)
Inductive log_msg : Type :=
  | MsgPushed (source : string) (data : dict)
  | MsgPushFailed (source : string) (status : Z)
  | MsgNetworkError (e : exn)
  | MsgStoredLocally (source : string)
  | MsgServerOK (version db : json)
  | MsgServerReturned (status : Z)
  | MsgServerUnreachable (e : exn)
  | MsgText (s : string).

Inductive event : Type :=
  | EvMkdir (p : path)
  | EvOpen (p : path)
  | EvDump (p : path) (doc : dict)
  | EvPost (url : string) (body : json) (timeout : Z)
  | EvGet (url : string) (timeout : Z)
  | EvLog (m : log_msg)
  | EvSleep (seconds : Z).

Definition is_network (ev : event) : bool :=
  match ev with EvPost _ _ _ | EvGet _ _ => true | _ => false end.

Definition is_post (ev : event) : bool :=
  match ev with EvPost _ _ _ => true | _ => false end.

Definition is_get (ev : event) : bool :=
  match ev with EvGet _ _ => true | _ => false end.

(** Content of a cache file, as [json.load] reads it: the document
    [json.dump] wrote, or what an interrupted write leaves behind. *)
Inductive cache_file : Type := Doc (d : dict) | Truncated.

Record world : Type := mkWorld {
  w_now : Z;
  w_files : gmap path cache_file;
  w_jobs : list job;
  w_trace : list event
}.

(** State and exceptions. *)
Definition M (A : Type) : Type := world -> res A * world.

Definition ret {A} (a : A) : M A := fun w => (Ok a, w).
Definition raise {A} (e : exn) : M A := fun w => (Raise e, w).
Definition bind {A B} (m : M A) (k : A -> M B) : M B :=
  fun w => match m w with
           | (Ok a, w') => k a w'
           | (Raise e, w') => (Raise e, w')
           end.
Definition lift {A} (r : res A) : M A := fun w => (r, w).

(** [try: m except C as e: handler e], where [catches] decides class [C]. *)
Definition try_except {A} (m : M A) (catches : exn -> bool)
    (handler : exn -> M A) : M A :=
  fun w => match m w with
           | (Ok a, w') => (Ok a, w')
           | (Raise e, w') => if catches e then handler e w' else (Raise e, w')
           end.

Definition emit (ev : event) : M unit :=
  fun w => (Ok tt, mkWorld (w_now w) (w_files w) (w_jobs w) (w_trace w ++ [ev])%list).
Definition get_now : M Z := fun w => (Ok (w_now w), w).
Definition set_file (p : path) (c : cache_file) : M unit :=
  fun w => (Ok tt, mkWorld (w_now w) (<[p := c]> (w_files w)) (w_jobs w) (w_trace w)).
Definition get_jobs : M (list job) := fun w => (Ok (w_jobs w), w).
Definition set_jobs (js : list job) : M unit :=
  fun w => (Ok tt, mkWorld (w_now w) (w_files w) js (w_trace w)).
Definition advance (us : Z) : M unit :=
  fun w => (Ok tt, mkWorld (w_now w + us) (w_files w) (w_jobs w) (w_trace w)).

End World.
Export World.

(** [x ← m; k] and [m ;; k] are stdpp's monad notations, at [M]. *)
#[global] Instance M_ret : MRet M := @ret.
#[global] Instance M_bind : MBind M := fun A B k m => bind m k.

(** ** The agent: oracle-agent.py *)

Module Agent.

Section WithHost.

Variable h : host.

(** *** Config *)

Definition getenv (k default : string) : string :=
  match environ h !! k with Some v => v | None => default end.

Definition KRYV_SERVER : string := getenv "KRYV_SERVER" "https://mcp.kryv.network".
Definition CLIENT_ID : string := getenv "KRYV_CLIENT_ID" "".
Definition PRIVACY_MODE : bool :=
  String.eqb (lower (getenv "KRYV_PRIVACY" "false")) "true".
Definition PUSH_URL : string := KRYV_SERVER ++ "/push".
Definition LOCAL_STORE : path := ["tmp"; "kryv-context"].

(** [LOCAL_STORE.mkdir(exist_ok=True)], run when the module is loaded. *)
Definition module_init : M unit := emit (EvMkdir LOCAL_STORE).

Definition log (m : log_msg) : M unit := emit (EvLog m).

(** [open(p, "w")]: the file is created, or truncated if it exists. *)
Definition open_w (p : path) : M unit :=
  now ← get_now;
  emit (EvOpen p);;
  match fs_write h now p with
  | OpenFails e => raise e
  | _ => set_file p Truncated
  end.

(** [json.dump(doc, f)], and the closing of [f] at the end of [with]. *)
Definition json_dump (p : path) (doc : dict) : M unit :=
  now ← get_now;
  match fs_write h now p with
  | DumpFails e => raise e
  | _ => set_file p (Doc doc);; emit (EvDump p doc)
  end.

Definition requests_post (url : string) (body : json) (timeout : Z)
    : M response :=
  now ← get_now;
  emit (EvPost url body timeout);;
  lift (http_post h now url body).

Definition requests_get (url : string) (timeout : Z) : M response :=
  now ← get_now;
  emit (EvGet url timeout);;
  lift (http_get h now url).

Definition utcnow : M datetime := now ← get_now; mret (utc_of h now).

(** Truth value of a [str]: non-empty. *)
Definition truthy (s : string) : bool := negb (String.eqb s "").

Definition push_context (source : string) (data : dict) : M unit :=
  let payload := JObj [("client_id", JStr CLIENT_ID);
                       ("source", JStr source);
                       ("data", JObj data)] in
  (* Always store locally *)
  let local_file := (LOCAL_STORE ++ [(source ++ ".json")%string])%list in
  open_w local_file;;
  stamp ← utcnow;
  json_dump local_file (dict_set "updated_at" (JStr (isoformat stamp)) data);;
  (* Push to server unless privacy mode *)
  if negb PRIVACY_MODE && truthy CLIENT_ID then
    try_except
      (res ← requests_post PUSH_URL payload 10;
       if ok res then log (MsgPushed source data)
       else log (MsgPushFailed source (status_code res)))
      is_RequestException
      (fun e => log (MsgNetworkError e))
  else
    log (MsgStoredLocally source).

Definition check_server : M bool :=
  try_except
    (res ← requests_get (KRYV_SERVER ++ "/health") 5;
     if ok res then
       data ← lift (body_json res);
       version ← lift (json_get data "version" (JStr "?"));
       db ← lift (json_get data "db" (JStr "?"));
       log (MsgServerOK version db);;
       mret true
     else
       log (MsgServerReturned (status_code res));;
       mret false)
    (fun _ => true)
    (fun e => log (MsgServerUnreachable e);; mret false).

(** *** Context collectors *)

Definition collect_system_info : M dict :=
  now ← get_now;
  match psutil h now with
  | Some (cpu, mem, disk) =>
      advance 1000000;;  (* cpu_percent(interval=1) *)
      mret [("cpu_percent", cpu); ("memory_percent", mem);
            ("disk_percent", disk);
            ("platform", JStr (platform_system h));
            ("hostname", JStr (platform_node h))]
  | None =>
      mret [("platform", JStr (platform_system h));
            ("hostname", JStr (platform_node h));
            ("note", JStr "install psutil for full stats")]
  end.

(** Errors that [Path.is_file] and [Path.exists] turn into [False]. *)
Definition ignore_error (e : exn) : bool :=
  match e with
  | FileNotFoundError => true
  | OSError c => bool_decide (c ∈ ["ENOENT"; "ENOTDIR"; "EBADF"; "ELOOP"])
  | _ => false
  end.

Definition is_file (e : entry) : res bool :=
  match e_stat e with
  | Ok st => Ok (st_is_file st)
  | Raise x => if ignore_error x then Ok false else Raise x
  end.

Definition entry_name (d : path) (e : entry) : string :=
  List.last (d ++ e_rel e)%list "".

(** [round(size / 1024, 1)], in tenths; ties go to the even tenth. *)
Definition size_kb_tenths (size : N) : Z :=
  let n := Z.of_N size * 10 in
  let q := n / 1024 in
  let r := n mod 1024 in
  if 2 * r <? 1024 then q
  else if 1024 <? 2 * r then q + 1
  else if Z.even q then q else q + 1.

Record file_rec : Type := mkFileRec {
  f_name : string;
  f_path : string;
  f_size_kb : Z;
  f_modified : string;
  f_type : string
}.

Definition file_json (r : file_rec) : json :=
  JObj [("name", JStr (f_name r)); ("path", JStr (f_path r));
        ("size_kb", JDec (f_size_kb r) (-1));
        ("modified", JStr (f_modified r)); ("type", JStr (f_type r))].

Definition mk_file_rec (d : path) (e : entry) (st : stat_result)
    : res file_rec :=
  rel ← relative_to (d ++ e_rel e)%list (home h);
  Ok (mkFileRec (entry_name d e) (str_rel rel)
          (size_kb_tenths (st_size st))
          (isoformat (local_of h (st_mtime st)))
          (lower (suffix (entry_name d e)))).

(** One turn of the loop over [d.rglob("*")] in [collect_local_files]. *)
Definition file_entry (d : path) (cutoff : Z) (e : entry)
    : res (option file_rec) :=
  b ← is_file e;
  if (b : bool) then
    st ← e_stat e;
    if cutoff <? st_mtime st then r ← mk_file_rec d e st; Ok (Some r)
    else Ok None
  else Ok None.

(** The loop over one directory: the list as it stands when the loop ends,
    and the exception that ended it, if one did. *)
Fixpoint scan_files (d : path) (cutoff : Z) (es : list entry)
    (files : list file_rec) : list file_rec * option exn :=
  match es with
  | [] => (files, None)
  | e :: es' =>
      match file_entry d cutoff e with
      | Ok (Some r) => scan_files d cutoff es' (files ++ [r])%list
      | Ok None => scan_files d cutoff es' files
      | Raise x => (files, Some x)
      end
  end.

Fixpoint scan_dirs (now cutoff : Z) (ds : list path) (files : list file_rec)
    : res (list file_rec) :=
  match ds with
  | [] => Ok files
  | d :: ds' =>
      if negb (fs_exists h now d) then scan_dirs now cutoff ds' files
      else
        match scan_files d cutoff (fs_rglob h now d) files with
        | (files', None) => scan_dirs now cutoff ds' files'
        | (files', Some x) =>
            if is_PermissionError x then scan_dirs now cutoff ds' files'
            else Raise x
        end
  end.

Record local_files : Type := mkLocalFiles {
  recent_files : list file_rec;
  lf_count : nat;
  watched_dirs : list string
}.

Definition local_files_json (r : local_files) : dict :=
  [("recent_files", JList (map file_json (recent_files r)));
   ("count", JInt (Z.of_nat (lf_count r)));
   ("watched_dirs", JList (map JStr (watched_dirs r)))].

Definition day_us : Z := 24 * 60 * 60 * 1000000.

Definition collect_local_files (watch_dirs : option (list path))
    : M local_files :=
  let watch_dirs :=
    match watch_dirs with
    | Some ds => ds
    | None => [(home h ++ ["Documents"])%list; (home h ++ ["Downloads"])%list;
               (home h ++ ["Desktop"])%list]
    end in
  now ← get_now;
  let cutoff := now - day_us in  (* last 24 hours *)
  files ← lift (scan_dirs now cutoff watch_dirs []);
  let files := sort_desc f_modified files in
  mret (mkLocalFiles (take 50 files) (List.length files) (map str_abs watch_dirs)).

Record note_rec : Type := mkNoteRec {
  n_name : string;
  n_path : string;
  n_preview : string;
  n_word_count : nat;
  n_modified : string
}.

Definition note_json (r : note_rec) : json :=
  JObj [("name", JStr (n_name r)); ("path", JStr (n_path r));
        ("preview", JStr (n_preview r));
        ("word_count", JInt (Z.of_nat (n_word_count r)));
        ("modified", JStr (n_modified r))].

Definition extensions : list string := [".txt"; ".md"; ".markdown"; ".text"].

Definition mk_note_rec (d : path) (e : entry) : res note_rec :=
  content ← e_text e;
  rel ← relative_to (d ++ e_rel e)%list (home h);
  st ← e_stat e;
  Ok (mkNoteRec (entry_name d e) (str_rel rel)
          (strip (slice_to 200 content)) (List.length (split content))
          (isoformat (local_of h (st_mtime st)))).

(** One turn of the loop over [d.rglob("*")] in [collect_notes]: the test is
    outside the [try], the reading is inside [try ... except Exception]. *)
Definition note_entry (d : path) (e : entry) : res (option note_rec) :=
  b ← is_file e;
  if b && bool_decide (lower (suffix (entry_name d e)) ∈ extensions) then
    match mk_note_rec d e with
    | Ok r => Ok (Some r)
    | Raise _ => Ok None
    end
  else Ok None.

Fixpoint scan_notes (d : path) (es : list entry) (notes : list note_rec)
    : res (list note_rec) :=
  match es with
  | [] => Ok notes
  | e :: es' =>
      o ← note_entry d e;
      match o with
      | Some r => scan_notes d es' (notes ++ [r])%list
      | None => scan_notes d es' notes
      end
  end.

Fixpoint scan_note_dirs (now : Z) (ds : list path) (notes : list note_rec)
    : res (list note_rec) :=
  match ds with
  | [] => Ok notes
  | d :: ds' =>
      if negb (fs_exists h now d) then scan_note_dirs now ds' notes
      else
        notes' ← scan_notes d (fs_rglob h now d) notes;
        scan_note_dirs now ds' notes'
  end.

Record notes_result : Type := mkNotes {
  notes : list note_rec;
  n_count : nat
}.

Definition notes_json (r : notes_result) : dict :=
  [("notes", JList (map note_json (notes r)));
   ("count", JInt (Z.of_nat (n_count r)))].

Definition note_dirs : list path :=
  [(home h ++ ["Notes"])%list; (home h ++ ["Documents"])%list;
   (home h ++ ["Desktop"])%list].

Definition collect_notes : M notes_result :=
  now ← get_now;
  found ← lift (scan_note_dirs now note_dirs []);
  let found := sort_desc n_modified found in
  mret (mkNotes (take 20 found) (List.length found)).

Definition collect_clipboard : M dict :=
  now ← get_now;
  let absent := [("has_content", JBool false);
                 ("note", JStr "xclip not available or clipboard empty")] in
  match xclip h now with
  | Ok (returncode, stdout) =>
      if (returncode =? 0) && truthy stdout
      then mret [("content", JStr (slice_to 500 stdout));
                 ("has_content", JBool true)]
      else mret absent
  | Raise _ => mret absent
  end.

(** *** Scheduled jobs *)

Definition job_full_sync : M unit :=
  log (MsgText "Starting full sync...");;
  (* System info *)
  info ← collect_system_info;
  push_context "system_info" info;;
  (* Recent files *)
  files ← collect_local_files None;
  push_context "local_files" (local_files_json files);;
  (* Notes *)
  found ← collect_notes;
  push_context "local_notes" (notes_json found);;
  log (MsgText "Full sync complete.").

Definition job_quick_sync : M unit :=
  info ← collect_system_info;
  push_context "system_info" info.

(** Calling a registered callable; the value is what the Python function
    returns ([None] for the two sync jobs, a [bool] for [check_server]). *)
Definition call_job (f : job_fun) : M job_ret :=
  match f with
  | JobQuickSync => job_quick_sync;; mret RNone
  | JobFullSync => job_full_sync;; mret RNone
  | JobCheckServer => b ← check_server; mret (RBool b)
  end.

(** *** The [schedule] library, as far as [main] uses it *)

Definition minute_us : Z := 60 * 1000000.

(** [schedule.every(n).minutes.do(f)]: a new job, first due [n] minutes from
    now, appended to the scheduler's list. *)
Definition every_minutes_do (n : Z) (f : job_fun) : M unit :=
  now ← get_now;
  js ← get_jobs;
  set_jobs (js ++ [mkJob (List.length js) n f (now + n * minute_us)])%list.

Definition should_run (now : Z) (j : job) : bool := j_next_run j <=? now.

Definition reschedule (id : nat) (now : Z) (j : job) : job :=
  if Nat.eqb (j_id j) id
  then mkJob (j_id j) (j_interval j) (j_func j) (now + j_interval j * minute_us)
  else j.

Definition is_cancel (r : job_ret) : bool :=
  match r with RCancel => true | _ => false end.

(** [Scheduler._run_job]: run the job, schedule its next run, and drop it
    from the list when it returned [CancelJob]. *)
Definition _run_job (j : job) : M unit :=
  r ← call_job (j_func j);
  now ← get_now;
  js ← get_jobs;
  set_jobs (map (reschedule (j_id j) now) js);;
  if is_cancel r then
    js ← get_jobs;
    set_jobs (filter (fun j' => negb (Nat.eqb (j_id j') (j_id j))) js)
  else mret tt.

Fixpoint for_each {A} (f : A -> M unit) (l : list A) : M unit :=
  match l with
  | [] => mret tt
  | x :: l' => f x;; for_each f l'
  end.

(** [schedule.run_pending()]: the jobs that are due, earliest first. *)
Definition run_pending : M unit :=
  now ← get_now;
  js ← get_jobs;
  let runnable := List.filter (should_run now) js in
  for_each _run_job
    (sort_by (fun x y => j_next_run y <? j_next_run x) runnable).

Definition sleep (seconds : Z) : M unit :=
  emit (EvSleep seconds);; advance (seconds * 1000000).

(** *** Main *)

(** Everything [main] does before it enters [while True]. *)
Definition main_startup : M unit :=
  log (MsgText "KRYV-MCP Agent starting...");;
  log (MsgText ("Server: " ++ KRYV_SERVER));;
  log (MsgText ("Client ID: " ++
         (if truthy CLIENT_ID then CLIENT_ID
          else "(not set — set KRYV_CLIENT_ID env var)")));;
  log (MsgText ("Privacy mode: " ++ (if PRIVACY_MODE then "True" else "False")));;
  (if negb (truthy CLIENT_ID)
   then log (MsgText "WARNING: KRYV_CLIENT_ID not set. Context will be stored locally only.")
   else mret tt);;
  (* Check server *)
  check_server;;
  (* Run immediately on start *)
  job_full_sync;;
  (* Schedule *)
  every_minutes_do 1 JobQuickSync;;
  every_minutes_do 5 JobFullSync;;
  every_minutes_do 30 JobCheckServer;;
  log (MsgText "Scheduler running. Press Ctrl+C to stop.").

(** [ticks] turns of [while True: schedule.run_pending(); time.sleep(10)]. *)
Fixpoint main_loop (ticks : nat) : M unit :=
  match ticks with
  | O => mret tt
  | S n => run_pending;; sleep 10;; main_loop n
  end.

(** [main], observed for [ticks] turns of its loop. *)
Definition main (ticks : nat) : M unit :=
  main_startup;; main_loop ticks.

End WithHost.

End Agent.
Export Agent.

(** The world a freshly started process finds: no job registered, nothing
    observed yet. *)
Definition boot (now : Z) (files : gmap path cache_file) : world :=
  mkWorld now files [] [].

(** ** Observations on a run *)

(** The events a computation added to the trace. *)
Definition new_events (w w' : world) : list event :=
  drop (List.length (w_trace w)) (w_trace w').

Definition add_events (evs : list event) (w : world) : world :=
  mkWorld (w_now w) (w_files w) (w_jobs w) (w_trace w ++ evs)%list.

Definition put_file (p : path) (c : cache_file) (w : world) : world :=
  mkWorld (w_now w) (<[p := c]> (w_files w)) (w_jobs w) (w_trace w).

(** The cache file of a source and the document stored in it. *)
Definition cache_path (source : string) : path :=
  (LOCAL_STORE ++ [(source ++ ".json")%string])%list.

Definition stamped (h : host) (now : Z) (data : dict) : dict :=
  dict_set "updated_at" (JStr (isoformat (utc_of h now))) data.

Definition envelope (h : host) (source : string) (data : dict) : json :=
  JObj [("client_id", JStr (CLIENT_ID h)); ("source", JStr source);
        ("data", JObj data)].

(** Remote delivery is on: privacy mode off and a client identity set. *)
Definition remote_enabled (h : host) : bool :=
  negb (PRIVACY_MODE h) && truthy (CLIENT_ID h).

(** [json.load] of a cache file. *)
Definition read_cache (p : path) (w : world) : option dict :=
  match w_files w !! p with
  | Some (Doc d) => Some d
  | _ => None
  end.

(** The status classes of HTTP. *)
Definition is_2xx (status : Z) : bool := (200 <=? status) && (status <? 300).

(** What the network part of [push_context] does in world [w1] (the world
    after the cache write). *)
Definition deliver_run (h : host) (source : string) (data : dict) (w1 : world)
    : res unit * world :=
  let post := EvPost (PUSH_URL h) (envelope h source data) 10 in
  if remote_enabled h then
    match http_post h (w_now w1) (PUSH_URL h) (envelope h source data) with
    | Ok r =>
        (Ok tt,
         add_events [post; EvLog (if ok r then MsgPushed source data
                                  else MsgPushFailed source (status_code r))] w1)
    | Raise e =>
        if is_RequestException e
        then (Ok tt, add_events [post; EvLog (MsgNetworkError e)] w1)
        else (Raise e, add_events [post] w1)
    end
  else (Ok tt, add_events [EvLog (MsgStoredLocally source)] w1).


(** ** Sample hosts

    [gmtime] is the proleptic Gregorian calendar the C library computes for
    a POSIX time; the sample hosts keep their clocks in UTC. *)

Definition gmtime (us : Z) : datetime :=
  let secs := us / 1000000 in
  let days := secs / 86400 in
  let sod := secs mod 86400 in
  let z := days + 719468 in
  let era := z / 146097 in
  let doe := z mod 146097 in
  let yoe := (doe - doe / 1460 + doe / 36524 - doe / 146096) / 365 in
  let doy := doe - (365 * yoe + yoe / 4 - yoe / 100) in
  let mp := (5 * doy + 2) / 153 in
  let d := doy - (153 * mp + 2) / 5 + 1 in
  let m := if mp <? 10 then mp + 3 else mp - 9 in
  let y := yoe + era * 400 + (if m <=? 2 then 1 else 0) in
  mkDatetime (Z.to_N y) (Z.to_N m) (Z.to_N d)
    (Z.to_N (sod / 3600)) (Z.to_N (sod mod 3600 / 60)) (Z.to_N (sod mod 60))
    (Z.to_N (us mod 1000000)).

Fixpoint assoc {A} (p : path) (l : list (path * A)) : option A :=
  match l with
  | [] => None
  | (q, a) :: l' => if bool_decide (p = q) then Some a else assoc p l'
  end.

(** A host with home [/home/ubuntu], neither [psutil] nor [xclip], the
    given environment, one fixed answer for every file write, POST and GET,
    and the given directories with their listings. *)
Definition sample_host (env : gmap string string) (wr : write_outcome)
    (post get : res response) (tree : list (path * list entry)) : host :=
  mkHost env ["home"; "ubuntu"] gmtime gmtime
    (fun _ _ => wr)
    (fun _ p => bool_decide (is_Some (assoc p tree)))
    (fun _ p => default [] (assoc p tree))
    (fun _ _ _ => post) (fun _ _ => get)
    (fun _ => None) "Linux" "oracle-vm" (fun _ => Raise FileNotFoundError).

Definition env_private : gmap string string :=
  {[ "KRYV_CLIENT_ID" := "vm-1"; "KRYV_PRIVACY" := "true" ]}.
Definition env_remote : gmap string string :=
  {[ "KRYV_CLIENT_ID" := "vm-1" ]}.

Definition http_ok : res response := Ok (mkResponse 200 (Ok (JObj []))).

(** 2024-03-05T10:00:00Z *)
Definition noon : Z := 1709632800 * 1000000.

Definition sample_data : dict := [("platform", JStr "Linux")].

Definition http_status (status : Z) : res response :=
  Ok (mkResponse status (Ok JNull)).

(** The health endpoint and what [check_server] reads from a response. *)
Definition health_url (h : host) : string := KRYV_SERVER h ++ "/health".

Definition health_fields (r : response) : res (json * json) :=
  data ← body_json r;
  version ← json_get data "version" (JStr "?");
  db ← json_get data "db" (JStr "?");
  Ok (version, db).

Definition field_or_unknown (k : string) (kv : dict) : json :=
  match dict_get k kv with Some v => v | None => JStr "?" end.

(** ** What the collectors are expected to find *)


Definition is_under (base p : path) : bool :=
  match strip_prefix base p with Some _ => true | None => false end.

(** [stat] on the entry works, or fails with an error [is_file] ignores. *)
Definition statable (e : entry) : bool := is_Ok (is_file e).

Definition dirs_statable (h : host) (now : Z) (ds : list path) : bool :=
  forallb (fun d => negb (fs_exists h now d)
                    || forallb statable (fs_rglob h now d)) ds.

(** A file found below watch directory [fd_dir]. *)
Record found : Type := mkFound {
  fd_dir : path;
  fd_entry : entry;
  fd_stat : stat_result
}.

Definition fd_path (m : found) : path := (fd_dir m ++ e_rel (fd_entry m))%list.
Definition fd_name (m : found) : string := List.last (fd_path m) "".

(** Local calendar time of the last modification. *)
Definition fd_modified (h : host) (m : found) : datetime :=
  local_of h (st_mtime (fd_stat m)).

(** The regular files modified after [cutoff]. *)
Definition recent_stat (cutoff : Z) (e : entry) : option stat_result :=
  match e_stat e with
  | Ok st => if st_is_file st && (cutoff <? st_mtime st) then Some st else None
  | Raise _ => None
  end.

Definition recent_in (cutoff : Z) (d : path) (es : list entry) : list found :=
  omap (fun e => st ← recent_stat cutoff e; Some (mkFound d e st)) es.

(** Every file modified within the last 24 hours below the watch
    directories that exist, directory by directory in listing order. *)
Definition recent_matches (h : host) (now : Z) (ds : list path) : list found :=
  flat_map (fun d => if fs_exists h now d
                     then recent_in (now - day_us) d (fs_rglob h now d)
                     else []) ds.

Definition file_record (h : host) (m : found) : file_rec :=
  mkFileRec (fd_name m)
    (str_rel (default [] (strip_prefix (home h) (fd_path m))))
    (size_kb_tenths (st_size (fd_stat m)))
    (isoformat (fd_modified h m))
    (lower (suffix (fd_name m))).

(** The readable regular files with a note extension, with their text. *)
Definition note_file (d : path) (e : entry) : option (found * string) :=
  match e_stat e, e_text e with
  | Ok st, Ok content =>
      if st_is_file st
         && bool_decide (lower (suffix (List.last (d ++ e_rel e)%list ""))
                         ∈ extensions)
      then Some (mkFound d e st, content) else None
  | _, _ => None
  end.

Definition note_matches (h : host) (now : Z) : list (found * string) :=
  flat_map (fun d => if fs_exists h now d
                     then omap (note_file d) (fs_rglob h now d)
                     else []) (note_dirs h).

Definition note_record (h : host) (m : found * string) : note_rec :=
  mkNoteRec (fd_name (fst m))
    (str_rel (default [] (strip_prefix (home h) (fd_path (fst m)))))
    (strip (slice_to 200 (snd m)))
    (List.length (split (snd m)))
    (isoformat (fd_modified h (fst m))).

(** Newest first, by the text of the time stamp. *)
Definition newest_first {A} (stamp : A -> datetime) (ms : list A) : list A :=
  sort_desc (fun m => isoformat (stamp m)) ms.

Definition default_watch_dirs (h : host) : list path :=
  [(home h ++ ["Documents"])%list; (home h ++ ["Downloads"])%list;
   (home h ++ ["Desktop"])%list].

(** Sample directory listings.  [file_at name age size] is a readable
    regular file last modified [age] seconds before [noon]. *)
Definition file_at (name : string) (age : Z) (size : N) : entry :=
  mkEntry [name] (Ok (mkStat true size (noon - age * 1000000)))
    (Ok "remember the milk").

Definition three_fresh_one_stale : list entry :=
  [file_at "b.md" 7200 2048; file_at "old.txt" 172800 10;
   file_at "a.txt" 3600 256; file_at "c.log" 10800 100].

Definition home_watch : path := ["home"; "ubuntu"; "watch"].

Definition host_with (tree : list (path * list entry)) : host :=
  sample_host env_remote WriteOk http_ok http_ok tree.


Definition note_stamp (h : host) (m : found * string) : datetime :=
  fd_modified h (fst m).

(** A home with notes: two readable ones, one that cannot be read, and a
    file that is no note. *)
Definition note_at (name : string) (age : Z) (text : res string) : entry :=
  mkEntry [name] (Ok (mkStat true 64 (noon - age * 1000000))) text.

Definition some_notes : list entry :=
  [note_at "todo.TXT" 7200 (Ok "  buy milk and  bread  ");
   note_at "secret.md" 60 (Raise PermissionError);
   note_at "photo.png" 30 (Ok "not a note");
   note_at "plan.md" 3600 (Ok "ship it")].

Definition empty_host : host := host_with [].

(** ** What the string operations compute *)

Fixpoint all_space (s : string) : bool :=
  match s with
  | EmptyString => true
  | String c s' => isspace c && all_space s'
  end.


Definition head_char (s : string) : option ascii :=
  match s with EmptyString => None | String c _ => Some c end.

Fixpoint last_char (s : string) : option ascii :=
  match s with
  | EmptyString => None
  | String c EmptyString => Some c
  | String _ s' => last_char s'
  end.

(** Neither the first nor the last character is whitespace. *)
Definition trimmed (s : string) : Prop :=
  (forall c, head_char s = Some c -> isspace c = false)
  /\ (forall c, last_char s = Some c -> isspace c = false).


(** [stat] on the entry works, or fails with an error [is_file] ignores, or
    fails for lack of permission. *)
Definition tolerable (e : entry) : bool :=
  match is_file e with
  | Ok _ => true
  | Raise x => is_PermissionError x
  end.

Definition dirs_tolerable (h : host) (now : Z) (ds : list path) : bool :=
  forallb (fun d => negb (fs_exists h now d)
                    || forallb tolerable (fs_rglob h now d)) ds.

Definition clipboard_absent : dict :=
  [("has_content", JBool false);
   ("note", JStr "xclip not available or clipboard empty")].

Definition system_info_degraded (h : host) : dict :=
  [("platform", JStr (platform_system h));
   ("hostname", JStr (platform_node h));
   ("note", JStr "install psutil for full stats")].

(** A home whose Documents folder cannot be searched: listing works, [stat]
    on what is listed does not. *)
Definition locked_documents : list entry :=
  [file_at "seen.txt" 60 10;
   mkEntry ["vault"; "key.txt"] (Raise PermissionError) (Raise PermissionError);
   file_at "unseen.txt" 30 10].

(** ** Observing the jobs *)

Definition sync_start : event := EvLog (MsgText "Starting full sync...").

Definition is_sync_start (ev : event) : bool :=
  match ev with
  | EvLog (MsgText s) => String.eqb s "Starting full sync..."
  | _ => false
  end.

(** The files a run tried to open for writing, in order. *)
Definition opened (evs : list event) : list path :=
  omap (fun ev => match ev with EvOpen p => Some p | _ => None end) evs.

(** Number of full syncs started. *)
Definition syncs_started (evs : list event) : nat :=
  List.length (List.filter is_sync_start evs).

(** What identifies a registered job: its interval and its callable. *)
Definition job_sig (j : job) : Z * job_fun := (j_interval j, j_func j).


(** The lines [main] logs before the health check. *)
Definition preamble (h : host) : list event :=
  ([EvLog (MsgText "KRYV-MCP Agent starting...");
    EvLog (MsgText ("Server: " ++ KRYV_SERVER h));
    EvLog (MsgText ("Client ID: " ++
             (if truthy (CLIENT_ID h) then CLIENT_ID h
              else "(not set — set KRYV_CLIENT_ID env var)")));
    EvLog (MsgText ("Privacy mode: " ++
             (if PRIVACY_MODE h then "True" else "False")))]
   ++ (if negb (truthy (CLIENT_ID h))
       then [EvLog (MsgText "WARNING: KRYV_CLIENT_ID not set. Context will be stored locally only.")]
       else []))%list.

(** The registrations of [main], made at time [w_now w]. *)
Definition register_jobs (w : world) : world :=
  mkWorld (w_now w) (w_files w)
    (w_jobs w ++
     [mkJob (List.length (w_jobs w)) 1 JobQuickSync (w_now w + 1 * minute_us);
      mkJob (S (List.length (w_jobs w))) 5 JobFullSync (w_now w + 5 * minute_us);
      mkJob (S (S (List.length (w_jobs w)))) 30 JobCheckServer
        (w_now w + 30 * minute_us)])%list
    (w_trace w).

Definition scheduler_running : event :=
  EvLog (MsgText "Scheduler running. Press Ctrl+C to stop.").

(** A host on which nothing the agent does not handle goes wrong: cache
    files can be written, the transport fails only with its own
    exceptions, and what is listed in the scanned folders can be stat-ed
    (a permission error being allowed where it is handled). *)
Definition healthy (h : host) : Prop :=
  (forall t p, fs_write h t p = WriteOk)
  /\ (forall t url body e,
        http_post h t url body = Raise e -> is_RequestException e = true)
  /\ (forall t, dirs_tolerable h t (default_watch_dirs h) = true)
  /\ (forall t, dirs_statable h t (note_dirs h) = true).

(** ** Further observations *)

(** The keys of a dictionary, in order. *)
Definition keys (d : dict) : list string := map fst d.

(** Data that already carries an [updated_at] key. *)
Definition stale_data : dict :=
  [("cpu_percent", JDec 125 (-1)); ("updated_at", JStr "yesterday");
   ("hostname", JStr "oracle-vm")].

(** The host [h] with another clipboard utility, or with [psutil]. *)
Definition with_xclip (x : res (Z * string)) (h : host) : host :=
  mkHost (environ h) (home h) (utc_of h) (local_of h) (fs_write h)
    (fs_exists h) (fs_rglob h) (http_post h) (http_get h) (psutil h)
    (platform_system h) (platform_node h) (fun _ => x).

Definition with_psutil (s : json * json * json) (h : host) : host :=
  mkHost (environ h) (home h) (utc_of h) (local_of h) (fs_write h)
    (fs_exists h) (fs_rglob h) (http_post h) (http_get h) (fun _ => Some s)
    (platform_system h) (platform_node h) (xclip h).

(** The watch directories [collect_local_files] scans. *)
Definition watch_dirs_of (h : host) (o : option (list path)) : list path :=
  match o with Some ds => ds | None => default_watch_dirs h end.


(** The fixed lines among the logged ones, in order. *)
Definition texts (evs : list event) : list string :=
  omap (fun ev => match ev with EvLog (MsgText s) => Some s | _ => None end) evs.

Definition posts (evs : list event) : list event := List.filter is_post evs.
Definition gets (evs : list event) : list event := List.filter is_get evs.

Definition sync_files : list path :=
  [cache_path "system_info"; cache_path "local_files"; cache_path "local_notes"].

Definition is_sleep (ev : event) : bool :=
  match ev with EvSleep _ => true | _ => false end.

(** Events that are no network call, or the GET of the health check. *)
Definition allowed_offline (h : host) (ev : event) : bool :=
  match ev with
  | EvPost _ _ _ => false
  | EvGet url timeout => String.eqb url (health_url h) && (timeout =? 5)
  | _ => true
  end.

(** [adds P m]: whatever the outcome, [m] only appends events, all of
    which satisfy [P]. *)
Definition adds {A} (P : event -> bool) (m : M A) : Prop :=
  forall w, exists evs,
    w_trace (snd (m w)) = (w_trace w ++ evs)%list /\ forallb P evs = true.

Definition warning_text : string :=
  "WARNING: KRYV_CLIENT_ID not set. Context will be stored locally only.".

Definition running_text : string := "Scheduler running. Press Ctrl+C to stop.".

(** The four lines [main] logs first. *)
Definition opening_lines (h : host) : list string :=
  ["KRYV-MCP Agent starting...";
   "Server: " ++ KRYV_SERVER h;
   "Client ID: " ++ (if truthy (CLIENT_ID h) then CLIENT_ID h
                     else "(not set — set KRYV_CLIENT_ID env var)");
   "Privacy mode: " ++ (if PRIVACY_MODE h then "True" else "False")].

(** The world after [n] turns of the loop in which no job was due: [n]
    sleeps of 10 seconds, nothing else. *)
Definition slept (n : nat) (w : world) : world :=
  mkWorld (w_now w + Z.of_nat n * 10000000) (w_files w) (w_jobs w)
    (w_trace w ++ repeat (EvSleep 10) n)%list.
(** * Properties *)

Ltac run_M :=
  unfold log;
  unfold mbind, mret, M_bind, M_ret, bind, ret, raise, lift, emit, get_now,
    set_file, get_jobs, set_jobs, advance, try_except;
  cbn [fst snd w_now w_files w_jobs w_trace].

Lemma new_events_add (evs : list event) (w : world) :
  new_events w (add_events evs w) = evs.
Proof.
  unfold new_events, add_events; cbn [w_trace].
  induction (w_trace w) as [|x t IH]; simpl; auto.
Qed.

Lemma add_events_app (a b : list event) (w : world) :
  add_events b (add_events a w) = add_events (a ++ b)%list w.
Proof. unfold add_events; cbn. now rewrite <- app_assoc. Qed.

(** *** Running [push_context] *)

Lemma push_context_run (h : host) (source : string) (data : dict) (w : world) :
  push_context h source data w =
  let p := cache_path source in
  let doc := stamped h (w_now w) data in
  match fs_write h (w_now w) p with
  | WriteOk =>
      deliver_run h source data
        (add_events [EvOpen p; EvDump p doc] (put_file p (Doc doc) w))
  | OpenFails e => (Raise e, add_events [EvOpen p] w)
  | DumpFails e => (Raise e, add_events [EvOpen p] (put_file p Truncated w))
  end.
Proof.
  unfold push_context, open_w, json_dump, utcnow.
  change (LOCAL_STORE ++ [(source ++ ".json")%string])%list with (cache_path source).
  fold (envelope h source data). run_M. cbn zeta.
  fold (stamped h (w_now w) data).
  destruct (fs_write h (w_now w) (cache_path source)) eqn:Hwr; run_M;
    rewrite ?Hwr; run_M; try reflexivity.
  rewrite insert_insert_eq.
  unfold deliver_run, remote_enabled.
  destruct (negb (PRIVACY_MODE h) && truthy (CLIENT_ID h)).
  - unfold requests_post. run_M.
    destruct (http_post _ _ _ _) as [r|e]; cbn.
    + destruct (ok r); run_M; unfold add_events, put_file; cbn;
        rewrite <- ?app_assoc; reflexivity.
    + destruct (is_RequestException e); run_M; unfold add_events, put_file; cbn;
        rewrite <- ?app_assoc; reflexivity.
  - run_M. unfold add_events, put_file; cbn; rewrite <- ?app_assoc; reflexivity.
Qed.

(** *** Strings and ISO-8601 text *)

Lemma append_cons (c : ascii) (s r : string) :
  String c s ++ r = String c (s ++ r).
Proof. reflexivity. Qed.

Lemma append_empty (r : string) : "" ++ r = r.
Proof. reflexivity. Qed.

Lemma append_empty_r (s : string) : s ++ "" = s.
Proof.
  induction s as [|c s IH]; [reflexivity|]. now rewrite append_cons, IH.
Qed.

Lemma option_bind_Some {A B} (x : A) (f : A -> option B) : Some x ≫= f = f x.
Proof. reflexivity. Qed.

Lemma digit_val_char (n : N) : digit_val (digit_char n) = Some (n mod 10)%N.
Proof.
  unfold digit_val, digit_char.
  assert (Hr : (n mod 10 < 10)%N) by (apply N.mod_lt; lia).
  revert Hr. generalize (n mod 10)%N as r. intros r Hr.
  rewrite N_ascii_embedding by lia.
  replace ((48 <=? 48 + r)%N && (48 + r <=? 57)%N) with true.
  - cbv iota. f_equal. lia.
  - symmetry. apply andb_true_intro. split; apply N.leb_le; lia.
Qed.

(** Reading [w] digits back gives the number written. *)
Lemma read_dec_dec (w : nat) : forall (n acc : N) (rest : string),
  read_dec w acc (dec w n ++ rest) =
  Some ((acc * 10 ^ N.of_nat w + n mod 10 ^ N.of_nat w)%N, rest).
Proof.
  induction w as [|w IH]; intros n acc rest.
  - simpl. rewrite N.mod_1_r. f_equal. f_equal. lia.
  - cbn [dec]. rewrite append_cons. cbn [read_dec].
    rewrite digit_val_char, IH. f_equal. f_equal.
    rewrite Nat2N.inj_succ, N.pow_succ_r'.
    rewrite (N.mul_comm 10 (10 ^ N.of_nat w)).
    rewrite N.Div0.mod_mul_r.
    generalize (n mod 10 ^ N.of_nat w)%N ((n / 10 ^ N.of_nat w) mod 10)%N
      (10 ^ N.of_nat w)%N. intros; lia.
Qed.

Lemma dt_valid_bounds (t : datetime) :
  dt_valid t = true ->
  (year t < 10 ^ 4 /\ month t < 10 ^ 2 /\ day t < 10 ^ 2 /\ hour t < 10 ^ 2
   /\ minute t < 10 ^ 2 /\ second t < 10 ^ 2 /\ microsecond t < 10 ^ 6)%N.
Proof.
  unfold dt_valid. rewrite !andb_true_iff, !N.leb_le, !N.ltb_lt.
  intros (((((((((Hy1 & Hy2) & Hm1) & Hm2) & Hd1) & Hd2) & Hh) & Hmi) & Hs) & Hus).
  assert (days_in_month (year t) (month t) <= 31)%N.
  { unfold days_in_month.
    repeat match goal with
           | |- context [if ?b then _ else _] => destruct b
           end; lia. }
  change (10 ^ 4)%N with 10000%N. change (10 ^ 2)%N with 100%N.
  change (10 ^ 6)%N with 1000000%N. lia.
Qed.

(** The text [isoformat] writes parses back to the same [datetime]. *)
Lemma fromisoformat_isoformat (t : datetime) :
  dt_valid t = true -> fromisoformat (isoformat t) = Some t.
Proof.
  intros Hv.
  pose proof (dt_valid_bounds t Hv) as (Hy & Hmo & Hd & Hh & Hmi & Hs & Hus).
  unfold fromisoformat, isoformat.
  repeat (rewrite read_dec_dec, option_bind_Some; cbv beta iota;
          rewrite ?append_cons, ?append_empty; cbn [expect Ascii.eqb Bool.eqb];
          rewrite ?option_bind_Some).
  rewrite !N.mod_small by assumption. rewrite !N.mul_0_l, !N.add_0_l.
  destruct t as [y mo d hh mi ss us];
    cbn [year month day hour minute second microsecond] in *.
  destruct (us =? 0)%N eqn:Hz.
  - apply N.eqb_eq in Hz; subst us.
    rewrite option_bind_Some; cbv beta iota. now rewrite Hv.
  - cbn [expect Ascii.eqb Bool.eqb]. rewrite option_bind_Some.
    rewrite <- (append_empty_r (dec 6 _)), read_dec_dec, option_bind_Some.
    cbv beta iota. rewrite N.mod_small by assumption.
    rewrite !N.mul_0_l, !N.add_0_l. now rewrite Hv.
Qed.

Lemma dt_le_refl (t : datetime) : dt_le t t.
Proof.
  unfold dt_le, dt_compare.
  induction (dt_fields t) as [|x l IH]; simpl; [discriminate|].
  now rewrite N.compare_refl.
Qed.

(** *** Dictionaries *)

Lemma dict_set_absent (k : string) (v : json) (d : dict) :
  dict_get k d = None -> dict_set k v d = (d ++ [(k, v)])%list.
Proof.
  induction d as [|[k' v'] d IH]; simpl; [reflexivity|].
  destruct (String.eqb k k'); [discriminate|]. intros H. now rewrite IH.
Qed.

Lemma dict_del_app_absent (k : string) (v : json) (d : dict) :
  dict_get k d = None -> dict_del k (d ++ [(k, v)])%list = d.
Proof.
  induction d as [|[k' v'] d IH]; simpl.
  - now rewrite String.eqb_refl.
  - destruct (String.eqb k k'); [discriminate|]. intros H. now rewrite IH.
Qed.

Lemma dict_get_set (k : string) (v : json) (d : dict) :
  dict_get k (dict_set k v d) = Some v.
Proof.
  induction d as [|[k' v'] d IH]; simpl.
  - now rewrite String.eqb_refl.
  - destruct (String.eqb k k') eqn:E; simpl; now rewrite E.
Qed.

(** *** Delivery: [push_context] *)

Lemma remote_enabled_false (h : host) :
  remote_enabled h = false <-> PRIVACY_MODE h = true \/ CLIENT_ID h = "".
Proof.
  unfold remote_enabled, truthy.
  destruct (PRIVACY_MODE h); simpl; [intuition|].
  destruct (String.eqb_spec (CLIENT_ID h) ""); simpl; intuition congruence.
Qed.

Lemma new_events_add_put (evs : list event) p c (w : world) :
  new_events w (add_events evs (put_file p c w)) = evs.
Proof. apply (new_events_add evs (put_file p c w)). Qed.

(** The network part only adds events, and among them exactly the one POST
    when remote delivery is on. *)
Lemma deliver_run_events (h : host) (source : string) (data : dict) (w1 : world) :
  exists evs,
    snd (deliver_run h source data w1) = add_events evs w1
    /\ List.filter is_network evs =
       if remote_enabled h
       then [EvPost (PUSH_URL h) (envelope h source data) 10] else [].
Proof.
  unfold deliver_run. destruct (remote_enabled h).
  - destruct (http_post _ _ _ _) as [r|e]; [|destruct (is_RequestException e)];
      eexists; split; try reflexivity; destruct (ok r); reflexivity.
  - eexists; split; reflexivity.
Qed.

(** A write that goes through leaves the stamped data in the cache file,
    whatever the network part does afterwards. *)
Lemma push_context_stores (h : host) (source : string) (data : dict) (w : world) :
  fs_write h (w_now w) (cache_path source) = WriteOk ->
  read_cache (cache_path source) (snd (push_context h source data w))
  = Some (stamped h (w_now w) data).
Proof.
  intros Hwr. rewrite push_context_run. cbn zeta. rewrite Hwr.
  destruct (deliver_run_events h source data
              (add_events [EvOpen (cache_path source);
                           EvDump (cache_path source) (stamped h (w_now w) data)]
                 (put_file (cache_path source)
                    (Doc (stamped h (w_now w) data)) w))) as (evs & Hw1 & _).
  destruct (deliver_run h source data _) as [r1 w1]; cbn [snd] in *; subst w1.
  unfold read_cache. cbn. now rewrite lookup_insert_eq.
Qed.

(** C1.  Every call of [push_context] begins with the write of the
    source's cache file, before anything else is observed.  When privacy
    mode is on or the client identity is empty the call issues no network
    call at all.  When the write goes through, the file holds the stamped
    data, and the network calls of the call are exactly one POST of the
    envelope to the push endpoint if privacy mode is off and the client
    identity is non-empty, and none otherwise. *)
Theorem push_context_local_always_remote_conditional
    (h : host) (source : string) (data : dict) (w : world) :
  let p := cache_path source in
  let w' := snd (push_context h source data w) in
  (exists rest, new_events w w' = EvOpen p :: rest)
  /\ (PRIVACY_MODE h = true \/ CLIENT_ID h = "" ->
      List.filter is_network (new_events w w') = [])
  /\ (fs_write h (w_now w) p = WriteOk ->
      read_cache p w' = Some (stamped h (w_now w) data)
      /\ (exists rest, new_events w w' =
            EvOpen p :: EvDump p (stamped h (w_now w) data) :: rest)
      /\ List.filter is_network (new_events w w') =
         (if negb (PRIVACY_MODE h) && negb (String.eqb (CLIENT_ID h) "")
          then [EvPost (PUSH_URL h) (envelope h source data) 10] else [])).
Proof.
  cbn zeta. rewrite push_context_run. cbn zeta.
  set (p := cache_path source). set (doc := stamped h (w_now w) data).
  destruct (deliver_run_events h source data
              (add_events [EvOpen p; EvDump p doc] (put_file p (Doc doc) w)))
    as (evs & Hw1 & Hnet).
  destruct (fs_write h (w_now w) p) eqn:Hwr; cbv iota.
  - destruct (deliver_run h source data _) as [r1 w1]; cbn [snd] in *; subst w1.
    rewrite add_events_app, new_events_add_put.
    split; [eexists; reflexivity|]. split.
    + intros Hoff. apply remote_enabled_false in Hoff.
      cbn [List.filter app is_network]. now rewrite Hnet, Hoff.
    + intros _. split; [|split].
      * unfold read_cache. cbn. now rewrite lookup_insert_eq.
      * eexists; reflexivity.
      * cbn [List.filter app is_network]. exact Hnet.
  - cbn [snd]. rewrite new_events_add. split; [eexists; reflexivity|].
    split; [reflexivity|discriminate].
  - cbn [snd]. rewrite new_events_add_put. split; [eexists; reflexivity|].
    split; [reflexivity|discriminate].
Qed.

(** Privacy mode on, client identity set: the cache file is written and no
    HTTP request is issued. *)
Lemma push_context_private_witness :
  let h := sample_host env_private WriteOk http_ok http_ok [] in
  let w' := snd (push_context h "system_info" sample_data (boot noon ∅)) in
  List.filter is_network (new_events (boot noon ∅) w') = []
  /\ read_cache (cache_path "system_info") w'
     = Some (stamped h noon sample_data).
Proof.
  cbn zeta.
  destruct (push_context_local_always_remote_conditional
              (sample_host env_private WriteOk http_ok http_ok [])
              "system_info" sample_data (boot noon ∅)) as (_ & Hoff & Hon).
  split.
  - apply Hoff. left. vm_compute. reflexivity.
  - apply Hon. reflexivity.
Defined.

(** C4.  When the cache write fails, in [open] or while writing, the error
    comes out of [push_context]; the call has done nothing but try to open
    the file: no POST was issued and no push was logged. *)
Theorem push_context_cache_error_propagates
    (h : host) (source : string) (data : dict) (w : world) (e : exn) :
  fs_write h (w_now w) (cache_path source) = OpenFails e
  \/ fs_write h (w_now w) (cache_path source) = DumpFails e ->
  fst (push_context h source data w) = Raise e
  /\ new_events w (snd (push_context h source data w))
     = [EvOpen (cache_path source)].
Proof.
  rewrite push_context_run. cbn zeta.
  intros [Hwr|Hwr]; rewrite Hwr; cbn [fst snd].
  - now rewrite new_events_add.
  - now rewrite new_events_add_put.
Qed.

Lemma push_context_cache_error_witness :
  let h := sample_host env_remote (DumpFails (OSError "ENOSPC")) http_ok http_ok [] in
  fst (push_context h "system_info" sample_data (boot noon ∅))
    = Raise (OSError "ENOSPC")
  /\ new_events (boot noon ∅)
       (snd (push_context h "system_info" sample_data (boot noon ∅)))
     = [EvOpen (cache_path "system_info")].
Proof.
  cbn zeta. apply push_context_cache_error_propagates. right. reflexivity.
Defined.

(** C3, as stated, fails: a response with status 304 is not in the 2xx
    class, and the push is logged as a success. *)
Lemma push_success_logged_on_status_304 :
  let h := sample_host env_remote WriteOk (http_status 304) http_ok [] in
  let w' := snd (push_context h "system_info" sample_data (boot noon ∅)) in
  ~ (In (EvLog (MsgPushed "system_info" sample_data)) (new_events (boot noon ∅) w')
     <-> is_2xx 304 = true).
Proof.
  cbn zeta. intros [Hlog _].
  assert (H2 : is_2xx 304 = true); [|discriminate H2].
  apply Hlog. vm_compute. auto 10.
Qed.

(** C3, amended.  When [push_context] issues the POST, a response is logged
    as a pushed snapshot exactly when its status is outside 400..599
    ([Response.ok]); a status in 400..599 is logged with its code; an
    exception of the transport ([requests.RequestException]) is logged.  In
    all three cases the call returns normally and has issued one POST. *)
Theorem push_context_response_handling
    (h : host) (source : string) (data : dict) (w : world) :
  remote_enabled h = true ->
  fs_write h (w_now w) (cache_path source) = WriteOk ->
  let p := cache_path source in
  let doc := stamped h (w_now w) data in
  let post := EvPost (PUSH_URL h) (envelope h source data) 10 in
  let out := push_context h source data w in
  match http_post h (w_now w) (PUSH_URL h) (envelope h source data) with
  | Ok r =>
      fst out = Ok tt
      /\ new_events w (snd out) =
         [EvOpen p; EvDump p doc; post;
          EvLog (if (400 <=? status_code r) && (status_code r <? 600)
                 then MsgPushFailed source (status_code r)
                 else MsgPushed source data)]
  | Raise e =>
      is_RequestException e = true ->
      fst out = Ok tt
      /\ new_events w (snd out) =
         [EvOpen p; EvDump p doc; post; EvLog (MsgNetworkError e)]
  end.
Proof.
  intros Hon Hwr. cbn zeta. rewrite push_context_run. cbn zeta.
  rewrite Hwr. unfold deliver_run. rewrite Hon.
  change (w_now (add_events _ (put_file _ _ w))) with (w_now w).
  destruct (http_post _ _ _ _) as [r|e].
  - cbn [fst snd]. split; [reflexivity|].
    rewrite add_events_app, new_events_add_put. unfold ok.
    now destruct ((400 <=? status_code r) && (status_code r <? 600)).
  - intros ->. cbn [fst snd]. split; [reflexivity|].
    now rewrite add_events_app, new_events_add_put.
Qed.

(** The health of the endpoint is 500: the status is logged, the call
    returns. *)
Lemma push_context_response_witness :
  let h := sample_host env_remote WriteOk (http_status 500) http_ok [] in
  let out := push_context h "system_info" sample_data (boot noon ∅) in
  fst out = Ok tt
  /\ new_events (boot noon ∅) (snd out) =
     [EvOpen (cache_path "system_info");
      EvDump (cache_path "system_info") (stamped h noon sample_data);
      EvPost (PUSH_URL h) (envelope h "system_info" sample_data) 10;
      EvLog (MsgPushFailed "system_info" 500)].
Proof.
  exact (push_context_response_handling
           (sample_host env_remote WriteOk (http_status 500) http_ok [])
           "system_info" sample_data (boot noon ∅) eq_refl eq_refl).
Defined.

(** C6.  For data without an [updated_at] key, a store that goes through
    leaves, whatever the file held before, a document that reads back as
    the data followed by [updated_at]; the value of [updated_at] is ISO-8601
    text that parses to the UTC clock reading of the call, hence to a time
    not before any time [t0] that is not after that reading. *)
Theorem cache_store_then_read
    (h : host) (source : string) (data : dict) (w : world) (t0 : datetime) :
  dict_get "updated_at" data = None ->
  fs_write h (w_now w) (cache_path source) = WriteOk ->
  dt_valid (utc_of h (w_now w)) = true ->
  dt_le t0 (utc_of h (w_now w)) ->
  exists (doc : dict) (text : string) (t : datetime),
    read_cache (cache_path source) (snd (push_context h source data w)) = Some doc
    /\ doc = (data ++ [("updated_at", JStr text)])%list
    /\ dict_del "updated_at" doc = data
    /\ dict_get "updated_at" doc = Some (JStr text)
    /\ fromisoformat text = Some t
    /\ dt_le t0 t.
Proof.
  intros Hkey Hwr Hvalid Hcall.
  pose proof (push_context_stores h source data w Hwr) as Hread.
  exists (stamped h (w_now w) data), (isoformat (utc_of h (w_now w))),
    (utc_of h (w_now w)).
  split; [exact Hread|]. unfold stamped.
  rewrite (dict_set_absent _ _ _ Hkey). split; [reflexivity|].
  split; [now apply dict_del_app_absent|].
  split; [rewrite <- (dict_set_absent _ _ _ Hkey); apply dict_get_set|].
  split; [now apply fromisoformat_isoformat|exact Hcall].
Qed.

Lemma cache_store_then_read_witness :
  let h := sample_host env_private WriteOk http_ok http_ok [] in
  let p := cache_path "system_info" in
  let w := boot noon {[ p := Doc [("stale", JNull)] ]} in
  exists (doc : dict) (text : string) (t : datetime),
    read_cache p (snd (push_context h "system_info" sample_data w)) = Some doc
    /\ doc = (sample_data ++ [("updated_at", JStr text)])%list
    /\ dict_del "updated_at" doc = sample_data
    /\ dict_get "updated_at" doc = Some (JStr text)
    /\ fromisoformat text = Some t
    /\ dt_le (mkDatetime 2024 3 5 9 59 59 0) t.
Proof.
  cbn zeta. apply cache_store_then_read.
  - reflexivity.
  - reflexivity.
  - vm_compute. reflexivity.
  - vm_compute. discriminate.
Defined.

(** *** The health check: [check_server] *)

Lemma check_server_run (h : host) (w : world) :
  check_server h w =
  let get := EvGet (health_url h) 5 in
  match http_get h (w_now w) (health_url h) with
  | Ok r =>
      if ok r then
        match health_fields r with
        | Ok (version, db) =>
            (Ok true, add_events [get; EvLog (MsgServerOK version db)] w)
        | Raise e =>
            (Ok false, add_events [get; EvLog (MsgServerUnreachable e)] w)
        end
      else
        (Ok false, add_events [get; EvLog (MsgServerReturned (status_code r))] w)
  | Raise e => (Ok false, add_events [get; EvLog (MsgServerUnreachable e)] w)
  end.
Proof.
  unfold check_server, requests_get, health_fields. fold (health_url h).
  run_M. cbn zeta.
  destruct (http_get h (w_now w) (health_url h)) as [r|e]; cbn.
  - destruct (ok r); cbn.
    + destruct (body_json r) as [data|e]; cbn.
      * destruct (json_get data "version" (JStr "?")) as [v|e]; cbn.
        -- destruct (json_get data "db" (JStr "?")) as [d|e]; cbn;
             unfold add_events; cbn; rewrite <- ?app_assoc; reflexivity.
        -- unfold add_events; cbn; rewrite <- ?app_assoc; reflexivity.
      * unfold add_events; cbn; rewrite <- ?app_assoc; reflexivity.
    + unfold add_events; cbn; rewrite <- ?app_assoc; reflexivity.
  - unfold add_events; cbn; rewrite <- ?app_assoc; reflexivity.
Qed.

(** [check_server] returns a boolean in every case and adds two events:
    the GET and one log line of its own. *)
Lemma check_server_total (h : host) (w : world) :
  exists (b : bool) (m : log_msg),
    check_server h w =
    (Ok b, add_events [EvGet (health_url h) 5; EvLog m] w)
    /\ is_sync_start (EvLog m) = false.
Proof.
  rewrite check_server_run. cbn zeta.
  destruct (http_get h (w_now w) (health_url h)) as [r|e]; [|eauto].
  destruct (ok r); [|eauto].
  destruct (health_fields r) as [[v d]|e]; eauto.
Qed.

(** C8.  [check_server] returns a boolean whatever the host answers.  A
    response whose status is not an error status and whose body is a JSON
    object gives [true], after the [version] and [db] fields (["?"] for an
    absent one) are logged; an error status gives [false] and its code is
    logged; an exception of the GET, of [res.json()] or of reading the
    fields gives [false] and is logged. *)
Theorem check_server_boolean_never_raises (h : host) (w : world) :
  let out := check_server h w in
  let get := EvGet (health_url h) 5 in
  (exists b : bool, fst out = Ok b)
  /\ match http_get h (w_now w) (health_url h) with
     | Ok r =>
         if ok r then
           (forall kv, body_json r = Ok (JObj kv) ->
              fst out = Ok true
              /\ new_events w (snd out) =
                 [get; EvLog (MsgServerOK (field_or_unknown "version" kv)
                                          (field_or_unknown "db" kv))])
           /\ (forall e, health_fields r = Raise e ->
                 fst out = Ok false
                 /\ new_events w (snd out) =
                    [get; EvLog (MsgServerUnreachable e)])
         else
           fst out = Ok false
           /\ new_events w (snd out) =
              [get; EvLog (MsgServerReturned (status_code r))]
     | Raise e =>
         fst out = Ok false
         /\ new_events w (snd out) = [get; EvLog (MsgServerUnreachable e)]
     end.
Proof.
  cbn zeta. split.
  - destruct (check_server_total h w) as (b & m & -> & _). now exists b.
  - rewrite check_server_run. cbn zeta.
    destruct (http_get h (w_now w) (health_url h)) as [r|e].
    + destruct (ok r).
      * split.
        -- intros kv Hbody. unfold health_fields. rewrite Hbody. cbn.
           now rewrite new_events_add.
        -- intros e ->. cbn. now rewrite new_events_add.
      * cbn. now rewrite new_events_add.
    + cbn. now rewrite new_events_add.
Qed.

(** The health endpoint answers 500: [false], the code is logged. *)
Lemma check_server_status_500_witness :
  let h := sample_host env_remote WriteOk http_ok (http_status 500) [] in
  let out := check_server h (boot noon ∅) in
  fst out = Ok false
  /\ new_events (boot noon ∅) (snd out) =
     [EvGet (health_url h) 5; EvLog (MsgServerReturned 500)].
Proof.
  exact (proj2 (check_server_boolean_never_raises
                  (sample_host env_remote WriteOk http_ok (http_status 500) [])
                  (boot noon ∅))).
Defined.

(** *** The order of strings and of ISO-8601 text *)












(** *** Stable sorting *)

Section SortBy.
Context {A : Type} (after : A -> A -> bool).

Lemma insert_by_perm (x : A) (l : list A) :
  Permutation (insert_by after x l) (x :: l).
Proof.
  induction l as [|y l IH]; cbn [insert_by]; [reflexivity|].
  destruct (after x y); [|reflexivity].
  rewrite IH. apply perm_swap.
Qed.

Lemma sort_by_perm (l : list A) : Permutation (sort_by after l) l.
Proof.
  induction l as [|x l IH]; cbn; [reflexivity|].
  fold (sort_by after l). rewrite insert_by_perm. now constructor.
Qed.

Lemma sort_by_length (l : list A) :
  List.length (sort_by after l) = List.length l.
Proof. apply Permutation_length, sort_by_perm. Qed.

Hypothesis after_asym : forall x y, after x y = true -> after y x = false.
Hypothesis before_trans :
  forall x y z, after x y = false -> after y z = false -> after x z = false.


End SortBy.




Lemma sort_by_map {A B} (f : A -> B) (after : B -> B -> bool) (l : list A) :
  sort_by after (map f l) = map f (sort_by (fun x y => after (f x) (f y)) l).
Proof.
  induction l as [|x l IH]; cbn; [reflexivity|].
  fold (sort_by after (map f l)). fold (sort_by (fun x y => after (f x) (f y)) l).
  rewrite IH. generalize (sort_by (fun x y => after (f x) (f y)) l) as s.
  induction s as [|y s IHs]; cbn; [reflexivity|].
  destruct (after (f x) (f y)); cbn; now rewrite ?IHs.
Qed.


(** *** Scanning directories *)

Lemma strip_prefix_app (base p q r : path) :
  strip_prefix base p = Some r -> strip_prefix base (p ++ q)%list = Some (r ++ q)%list.
Proof.
  revert p. induction base as [|x base IH]; intros p; cbn.
  - now intros [= <-].
  - destruct p as [|y p]; cbn; [discriminate|].
    destruct (String.eqb x y); [apply IH|discriminate].
Qed.

Lemma strip_prefix_self (base q : path) :
  strip_prefix base (base ++ q)%list = Some q.
Proof.
  induction base as [|x base IH]; cbn; [reflexivity|].
  now rewrite String.eqb_refl.
Qed.


Lemma is_under_relative (h : host) (d q : path) :
  is_under (home h) d = true ->
  relative_to (d ++ q)%list (home h)
  = Ok (default [] (strip_prefix (home h) (d ++ q)%list)).
Proof.
  unfold is_under, relative_to.
  destruct (strip_prefix (home h) d) as [r|] eqn:E; [|discriminate].
  intros _. now rewrite (strip_prefix_app _ _ q _ E).
Qed.

(** One turn of the loop of [collect_local_files], for an entry that can be
    stat-ed below a directory under the home. *)
Lemma file_entry_statable (h : host) (d : path) (cutoff : Z) (e : entry) :
  is_under (home h) d = true -> statable e = true ->
  file_entry h d cutoff e
  = Ok (option_map (fun st => file_record h (mkFound d e st))
          (recent_stat cutoff e)).
Proof.
  intros Hd He. unfold file_entry, recent_stat, statable, is_file in *.
  destruct (e_stat e) as [st|x] eqn:Est; cbn.
  - destruct (st_is_file st); cbn; [|reflexivity].
    destruct (cutoff <? st_mtime st); cbn; [|reflexivity].
    unfold mk_file_rec. rewrite (is_under_relative h d _ Hd). reflexivity.
  - destruct (ignore_error x); [reflexivity|discriminate].
Qed.



Lemma note_entry_statable (h : host) (d : path) (e : entry) :
  is_under (home h) d = true -> statable e = true ->
  note_entry h d e = Ok (option_map (note_record h) (note_file d e)).
Proof.
  intros Hd He. unfold note_entry, note_file, statable, is_file in *.
  unfold entry_name.
  destruct (e_stat e) as [st|x] eqn:Est; cbn.
  - destruct (st_is_file st); cbn.
    + destruct (bool_decide _); cbn.
      * unfold mk_note_rec. rewrite Est.
        destruct (e_text e) as [content|x]; cbn; [|reflexivity].
        rewrite (is_under_relative h d _ Hd). reflexivity.
      * now destruct (e_text e).
    + now destruct (e_text e).
  - destruct (ignore_error x); [reflexivity|discriminate].
Qed.

Lemma scan_notes_statable (h : host) (d : path) (es : list entry) :
  is_under (home h) d = true -> forallb statable es = true ->
  forall found,
    scan_notes h d es found
    = Ok (found ++ map (note_record h) (omap (note_file d) es))%list.
Proof.
  intros Hd. induction es as [|e es IH]; intros Hes found; cbn.
  - now rewrite app_nil_r.
  - cbn in Hes. apply andb_true_iff in Hes as [He Hes].
    rewrite (note_entry_statable h d e Hd He). cbn.
    destruct (note_file d e) as [m|]; cbn.
    + rewrite (IH Hes). now rewrite <- app_assoc.
    + apply (IH Hes).
Qed.

Lemma scan_note_dirs_statable (h : host) (now : Z) (ds : list path) :
  forallb (is_under (home h)) ds = true ->
  dirs_statable h now ds = true ->
  forall found,
    scan_note_dirs h now ds found
    = Ok (found ++ map (note_record h)
            (flat_map (fun d => if fs_exists h now d
                                then omap (note_file d) (fs_rglob h now d)
                                else []) ds))%list.
Proof.
  induction ds as [|d ds IH]; intros Hu Hs found; cbn.
  - now rewrite app_nil_r.
  - cbn in Hu, Hs. apply andb_true_iff in Hu as [Hd Hu].
    apply andb_true_iff in Hs as [Hsd Hs].
    destruct (fs_exists h now d); cbn in *.
    + rewrite (scan_notes_statable h d _ Hd Hsd). cbn.
      rewrite (IH Hu Hs). now rewrite map_app, app_assoc.
    + apply (IH Hu Hs).
Qed.

Lemma is_under_home_child (h : host) (name : string) :
  is_under (home h) (home h ++ [name])%list = true.
Proof. unfold is_under. now rewrite strip_prefix_self. Qed.

Lemma note_dirs_under_home (h : host) :
  forallb (is_under (home h)) (note_dirs h) = true.
Proof. unfold note_dirs. cbn. now rewrite !is_under_home_child. Qed.

Lemma default_dirs_under_home (h : host) :
  forallb (is_under (home h)) (default_watch_dirs h) = true.
Proof. unfold default_watch_dirs. cbn. now rewrite !is_under_home_child. Qed.

(** *** The recent-files collector *)





Section NewestFirst.
Context {A : Type} (stamp : A -> datetime).



Lemma newest_first_length (ms : list A) :
  List.length (newest_first stamp ms) = List.length ms.
Proof. apply sort_by_length. Qed.

End NewestFirst.


Lemma sort_file_records (h : host) (ms : list found) :
  sort_desc f_modified (map (file_record h) ms)
  = map (file_record h) (newest_first (fd_modified h) ms).
Proof. unfold newest_first, sort_desc. now rewrite sort_by_map. Qed.

Lemma sort_note_records (h : host) (ms : list (found * string)) :
  sort_desc n_modified (map (note_record h) ms)
  = map (note_record h) (newest_first (fun m => fd_modified h (fst m)) ms).
Proof. unfold newest_first, sort_desc. now rewrite sort_by_map. Qed.








(** *** The notes collector *)

Lemma collect_notes_run (h : host) (w : world) :
  dirs_statable h (w_now w) (note_dirs h) = true ->
  collect_notes h w
  = (Ok (mkNotes
           (map (note_record h)
              (take 20 (newest_first (note_stamp h) (note_matches h (w_now w)))))
           (List.length (note_matches h (w_now w)))), w).
Proof.
  intros Hs. unfold collect_notes. run_M.
  rewrite (scan_note_dirs_statable h (w_now w) _ (note_dirs_under_home h) Hs).
  cbn [app]. fold (note_matches h (w_now w)).
  rewrite sort_note_records, length_map. fold (note_stamp h).
  now rewrite newest_first_length, firstn_map.
Qed.


(** *** What [s[:n]], [strip] and [split] compute *)

Lemma slice_to_spec (n : nat) : forall s : string,
  exists rest, s = slice_to n s ++ rest
    /\ String.length (slice_to n s) = Nat.min n (String.length s).
Proof.
  unfold slice_to. induction n as [|n IH]; intros [|c s]; cbn.
  - exists "". auto.
  - exists (String c s). auto.
  - exists "". auto.
  - destruct (IH s) as (rest & Hs & Hl). exists rest.
    rewrite append_cons, <- Hs. cbn. auto.
Qed.

Lemma lstrip_spec (s : string) :
  exists l, s = l ++ lstrip s /\ all_space l = true
    /\ (forall c, head_char (lstrip s) = Some c -> isspace c = false).
Proof.
  induction s as [|c s (l & Hs & Hl & Hh)]; cbn.
  - exists "". repeat split; try reflexivity; discriminate.
  - destruct (isspace c) eqn:Hc.
    + exists (String c l). rewrite append_cons, <- Hs. cbn. rewrite Hc, Hl. auto.
    + exists "". repeat split; auto. cbn. now intros ? [= <-].
Qed.

Lemma rstrip_spec (s : string) :
  exists r, s = rstrip s ++ r /\ all_space r = true
    /\ (forall c, last_char (rstrip s) = Some c -> isspace c = false)
    /\ (forall c, head_char s = Some c -> isspace c = false ->
                  head_char (rstrip s) = Some c).
Proof.
  induction s as [|c s (r & Hs & Hr & Hl & Hh)]; cbn [rstrip].
  - exists "". repeat split; try reflexivity; discriminate.
  - destruct (rstrip s) as [|c' t] eqn:E.
    + destruct (isspace c) eqn:Hc.
      * exists (String c r). rewrite append_empty in *. subst s. cbn.
        rewrite Hc, Hr. repeat split; try discriminate.
        cbn. intros ? [= <-]. congruence.
      * exists r. rewrite append_empty in Hs. subst s.
        rewrite append_cons, append_empty. repeat split; auto.
        cbn. now intros ? [= <-].
    + exists r. rewrite append_cons, <- Hs. repeat split; auto.
Qed.

Lemma strip_spec (s : string) :
  exists l r, s = l ++ strip s ++ r
    /\ all_space l = true /\ all_space r = true /\ trimmed (strip s).
Proof.
  unfold strip.
  destruct (lstrip_spec s) as (l & Hs & Hl & Hh).
  destruct (rstrip_spec (lstrip s)) as (r & Hs' & Hr & Hlast & Hhead).
  exists l, r. split; [now rewrite <- Hs'|]. split; [exact Hl|].
  split; [exact Hr|]. split; [|exact Hlast].
  intros c Hc. destruct (lstrip s) as [|c0 t] eqn:E; [discriminate Hc|].
  pose proof (Hh c0 eq_refl) as Hc0.
  rewrite (Hhead c0 eq_refl Hc0) in Hc. now injection Hc as <-.
Qed.









(** *** Collectors and what is missing *)

Lemma scan_files_tolerant (h : host) (d : path) (cutoff : Z) (es : list entry) :
  is_under (home h) d = true -> forallb tolerable es = true ->
  forall files, exists ms o,
    scan_files h d cutoff es files = ((files ++ map (file_record h) ms)%list, o)
    /\ ms `sublist_of` recent_in cutoff d es
    /\ (forall x, o = Some x -> is_PermissionError x = true).
Proof.
  intros Hd. induction es as [|e es IH]; intros Hes files; cbn [scan_files].
  - exists [], None. rewrite app_nil_r. repeat split; [constructor|discriminate].
  - cbn in Hes. apply andb_true_iff in Hes as [He Hes].
    unfold tolerable in He. destruct (is_file e) as [b|x] eqn:Ef.
    + assert (Hst : statable e = true) by (unfold statable; now rewrite Ef).
      rewrite (file_entry_statable h d cutoff e Hd Hst).
      unfold recent_in. cbn [omap list_omap].
      destruct (recent_stat cutoff e) as [st|]; cbn.
      * destruct (IH Hes (files ++ [file_record h (mkFound d e st)])%list)
          as (ms & o & Hrun & Hsub & Ho).
        exists (mkFound d e st :: ms), o. rewrite Hrun, <- app_assoc.
        repeat split; auto. now constructor.
      * apply (IH Hes).
    + unfold file_entry. rewrite Ef. cbn.
      exists [], (Some x). rewrite app_nil_r.
      repeat split; [apply sublist_nil_l|]. now intros ? [= <-].
Qed.

(** A permission error ends the scan of the directory it occurs in, and of
    that directory only: the result is made of files that match. *)
Lemma scan_dirs_tolerant (h : host) (now : Z) (ds : list path) :
  forallb (is_under (home h)) ds = true ->
  dirs_tolerable h now ds = true ->
  forall files, exists ms,
    scan_dirs h now (now - day_us) ds files
    = Ok (files ++ map (file_record h) ms)%list
    /\ ms `sublist_of` recent_matches h now ds.
Proof.
  induction ds as [|d ds IH]; intros Hu Hs files; cbn [scan_dirs].
  - exists []. rewrite app_nil_r. split; [reflexivity|constructor].
  - cbn in Hu, Hs. apply andb_true_iff in Hu as [Hd Hu].
    apply andb_true_iff in Hs as [Hsd Hs].
    cbn [recent_matches flat_map].
    destruct (fs_exists h now d); cbn in *.
    + destruct (scan_files_tolerant h d (now - day_us) _ Hd Hsd files)
        as (ms & o & Hrun & Hsub & Ho). rewrite Hrun.
      assert (Hnext : exists ms', scan_dirs h now (now - day_us) ds
                        (files ++ map (file_record h) ms)%list
                      = Ok ((files ++ map (file_record h) ms)
                            ++ map (file_record h) ms')%list
                      /\ ms' `sublist_of` recent_matches h now ds)
        by apply (IH Hu Hs).
      destruct Hnext as (ms' & Hrun' & Hsub').
      exists (ms ++ ms')%list. split; [|now apply sublist_app].
      rewrite map_app, app_assoc.
      destruct o as [x|]; [rewrite (Ho x eq_refl)|]; exact Hrun'.
    + apply (IH Hu Hs).
Qed.

Lemma collect_local_files_tolerant (h : host) (ds : list path) (w : world) :
  forallb (is_under (home h)) ds = true ->
  dirs_tolerable h (w_now w) ds = true ->
  exists ms,
    ms `sublist_of` recent_matches h (w_now w) ds
    /\ collect_local_files h (Some ds) w
       = (Ok (mkLocalFiles
                (map (file_record h) (take 50 (newest_first (fd_modified h) ms)))
                (List.length ms) (map str_abs ds)), w).
Proof.
  intros Hu Hs.
  destruct (scan_dirs_tolerant h (w_now w) ds Hu Hs []) as (ms & Hrun & Hsub).
  exists ms. split; [exact Hsub|].
  unfold collect_local_files. run_M. rewrite Hrun. cbn [app].
  rewrite sort_file_records, length_map, newest_first_length.
  now rewrite firstn_map.
Qed.

Lemma collect_system_info_run (h : host) (w : world) :
  collect_system_info h w =
  match psutil h (w_now w) with
  | Some (cpu, mem, disk) =>
      (Ok [("cpu_percent", cpu); ("memory_percent", mem);
           ("disk_percent", disk);
           ("platform", JStr (platform_system h));
           ("hostname", JStr (platform_node h))],
       mkWorld (w_now w + 1000000) (w_files w) (w_jobs w) (w_trace w))
  | None => (Ok (system_info_degraded h), w)
  end.
Proof.
  unfold collect_system_info. run_M.
  destruct (psutil h (w_now w)) as [[[cpu mem] disk]|]; reflexivity.
Qed.

Lemma collect_clipboard_run (h : host) (w : world) :
  collect_clipboard h w =
  (Ok match xclip h (w_now w) with
      | Ok (returncode, stdout) =>
          if (returncode =? 0) && truthy stdout
          then [("content", JStr (slice_to 500 stdout));
                ("has_content", JBool true)]
          else clipboard_absent
      | Raise _ => clipboard_absent
      end, w).
Proof.
  unfold collect_clipboard. run_M.
  destruct (xclip h (w_now w)) as [[rc out]|e]; [|reflexivity].
  now destruct ((rc =? 0) && truthy out).
Qed.



(** *** Jobs and the scheduler *)

Lemma collect_local_files_world (h : host) (o : option (list path)) (w : world) :
  snd (collect_local_files h o w) = w.
Proof.
  unfold collect_local_files. run_M.
  now destruct (scan_dirs h _ _ _ _).
Qed.

Lemma collect_notes_world (h : host) (w : world) :
  snd (collect_notes h w) = w.
Proof.
  unfold collect_notes. run_M. now destruct (scan_note_dirs h _ _ _).
Qed.

Lemma collect_system_info_world (h : host) (w : world) :
  exists d w', collect_system_info h w = (Ok d, w')
               /\ w_trace w' = w_trace w /\ w_jobs w' = w_jobs w.
Proof.
  rewrite collect_system_info_run.
  destruct (psutil h (w_now w)) as [[[cpu mem] disk]|]; eauto 10.
Qed.

(** What a call of [push_context] adds to the trace, whatever its outcome:
    one attempt to open the source's cache file, no start of a sync; the
    registered jobs are left alone. *)
Lemma push_context_effect (h : host) (source : string) (data : dict) (w : world) :
  exists evs,
    w_trace (snd (push_context h source data w)) = (w_trace w ++ evs)%list
    /\ w_jobs (snd (push_context h source data w)) = w_jobs w
    /\ opened evs = [cache_path source]
    /\ List.filter is_sync_start evs = []
    /\ (remote_enabled h = false -> List.filter is_network evs = []).
Proof.
  rewrite push_context_run. cbn zeta.
  destruct (fs_write h (w_now w) (cache_path source)).
  - unfold deliver_run.
    destruct (remote_enabled h).
    + destruct (http_post _ _ _ _) as [r|e].
      * eexists. cbn. rewrite <- app_assoc.
        repeat split; try discriminate; destruct (ok r); reflexivity.
      * destruct (is_RequestException e); eexists; cbn; rewrite <- app_assoc;
          repeat split; try discriminate; reflexivity.
    + eexists. cbn. rewrite <- app_assoc. repeat split; reflexivity.
  - eexists. cbn. repeat split; reflexivity.
  - eexists. cbn. repeat split; reflexivity.
Qed.


Ltac push_step h src d w1 w2 e T J O S N :=
  destruct (push_context_effect h src d w1) as (e & T & J & O & S & N);
  destruct (push_context h src d w1) as [[[]|?] w2];
  cbn [fst snd] in T, J |- *.

Lemma job_full_sync_effect (h : host) (w : world) :
  exists evs,
    w_trace (snd (job_full_sync h w)) = (w_trace w ++ sync_start :: evs)%list
    /\ w_jobs (snd (job_full_sync h w)) = w_jobs w
    /\ List.filter is_sync_start evs = []
    /\ (fst (job_full_sync h w) = Ok tt ->
        opened evs = [cache_path "system_info"; cache_path "local_files";
                      cache_path "local_notes"])
    /\ (remote_enabled h = false -> List.filter is_network evs = []).
Proof.
  unfold job_full_sync. run_M.
  destruct (collect_system_info_world h
              (mkWorld (w_now w) (w_files w) (w_jobs w)
                 (w_trace w ++ [EvLog (MsgText "Starting full sync...")])%list))
    as (d & w1 & -> & T1 & J1). cbn [w_trace w_jobs] in T1, J1.
  push_step h "system_info" d w1 w2 e1 T2 J2 O2 S2 N2.
  2:{ exists e1. rewrite T2, T1, J2, J1, <- app_assoc. cbn.
      repeat split; auto. discriminate. }
  pose proof (collect_local_files_world h None w2) as W3.
  destruct (collect_local_files h None w2) as [[files|x] w3];
    cbn [fst snd] in W3 |- *; subst w3.
  2:{ exists e1. cbn. rewrite T2, T1, J2, J1, <- app_assoc. cbn.
      repeat split; auto. discriminate. }
  push_step h "local_files" (local_files_json files) w2 w4 e2 T3 J3 O3 S3 N3.
  2:{ exists (e1 ++ e2)%list. cbn. rewrite T3, T2, T1, J3, J2, J1, <- !app_assoc.
      rewrite !List.filter_app, S2, S3. cbn. repeat split; auto; [discriminate|].
      intros Hoff. now rewrite N2, N3. }
  pose proof (collect_notes_world h w4) as W4.
  destruct (collect_notes h w4) as [[found|x] w5];
    cbn [fst snd] in W4 |- *; subst w5.
  2:{ exists (e1 ++ e2)%list. cbn. rewrite T3, T2, T1, J3, J2, J1, <- !app_assoc.
      rewrite !List.filter_app, S2, S3. cbn. repeat split; auto; [discriminate|].
      intros Hoff. now rewrite N2, N3. }
  push_step h "local_notes" (notes_json found) w4 w6 e3 T4 J4 O4 S4 N4.
  2:{ exists (e1 ++ e2 ++ e3)%list. cbn.
      rewrite T4, T3, T2, T1, J4, J3, J2, J1, <- !app_assoc.
      rewrite !List.filter_app, S2, S3, S4. cbn.
      repeat split; auto; [discriminate|].
      intros Hoff. now rewrite N2, N3, N4. }
  exists (e1 ++ e2 ++ e3 ++ [EvLog (MsgText "Full sync complete.")])%list. cbn.
  rewrite T4, T3, T2, T1, J4, J3, J2, J1, <- !app_assoc.
  rewrite !List.filter_app, S2, S3, S4. cbn. repeat split; auto.
  - intros _. unfold opened in *. rewrite !omap_app, O2, O3, O4. reflexivity.
  - intros Hoff. now rewrite N2, N3, N4.
Qed.

Lemma main_startup_run (h : host) (w : world) :
  main_startup h w =
  match job_full_sync h (snd (check_server h (add_events (preamble h) w))) with
  | (Ok _, w2) => (Ok tt, add_events [scheduler_running] (register_jobs w2))
  | (Raise e, w2) => (Raise e, w2)
  end.
Proof.
  set (W := add_events (preamble h) w).
  unfold main_startup, every_minutes_do.
  destruct (negb (truthy (CLIENT_ID h))) eqn:Hc; run_M;
    match goal with
    | |- context [check_server h ?x] =>
        replace x with W
          by (subst W; unfold add_events, preamble; rewrite Hc; cbn;
              rewrite <- ?app_assoc; reflexivity)
    end;
    destruct (check_server_total h W) as (b & m & -> & _); cbn [fst snd];
    (destruct (job_full_sync h _) as [[[]|e] w2]; [|reflexivity]);
    unfold add_events, register_jobs, scheduler_running; cbn;
    rewrite !length_app; cbn; rewrite !Nat.add_1_r, <- !app_assoc; reflexivity.
Qed.







(** *** A healthy host keeps the agent running *)

Lemma push_context_ok (h : host) (source : string) (data : dict) (w : world) :
  healthy h -> fst (push_context h source data w) = Ok tt.
Proof.
  intros (Hw & Hp & _). rewrite push_context_run. cbn zeta. rewrite Hw.
  unfold deliver_run. destruct (remote_enabled h); [|reflexivity].
  destruct (http_post _ _ _ _) as [r|e] eqn:E; [reflexivity|].
  now rewrite (Hp _ _ _ _ E).
Qed.


Lemma job_full_sync_ok (h : host) (w : world) :
  healthy h -> fst (job_full_sync h w) = Ok tt.
Proof.
  intros Hh. pose proof Hh as (_ & _ & Hf & Hn).
  unfold job_full_sync. run_M.
  destruct (collect_system_info_world h
              (mkWorld (w_now w) (w_files w) (w_jobs w)
                 (w_trace w ++ [EvLog (MsgText "Starting full sync...")])%list))
    as (d & w1 & -> & _).
  pose proof (push_context_ok h "system_info" d w1 Hh) as P1.
  destruct (push_context h "system_info" d w1) as [[[]|?] w2]; [|discriminate].
  destruct (collect_local_files_tolerant h (default_watch_dirs h) w2
              (default_dirs_under_home h) (Hf _)) as (ms & _ & Hrun).
  change (collect_local_files h (Some (default_watch_dirs h)) w2)
    with (collect_local_files h None w2) in Hrun. rewrite Hrun.
  match goal with
  | |- context [push_context h "local_files" ?d w2] =>
      pose proof (push_context_ok h "local_files" d w2 Hh) as P2;
      destruct (push_context h "local_files" d w2) as [[[]|?] w3]; [|discriminate]
  end.
  rewrite (collect_notes_run h w3 (Hn _)).
  match goal with
  | |- context [push_context h "local_notes" ?d w3] =>
      pose proof (push_context_ok h "local_notes" d w3 Hh) as P3;
      destruct (push_context h "local_notes" d w3) as [[[]|?] w4]; [|discriminate]
  end.
  reflexivity.
Qed.





Lemma main_startup_ok (h : host) (w : world) :
  healthy h -> fst (main_startup h w) = Ok tt.
Proof.
  intros Hh. rewrite main_startup_run.
  pose proof (job_full_sync_ok h
                (snd (check_server h (add_events (preamble h) w))) Hh) as P.
  destruct (job_full_sync h _) as [[[]|?] w2]; [reflexivity|discriminate].
Qed.

(** *** What [main] does before its loop *)

Lemma preamble_quiet (h : host) :
  List.filter is_sync_start (preamble h) = []
  /\ List.filter is_network (preamble h) = [].
Proof.
  unfold preamble. rewrite !List.filter_app.
  destruct (negb (truthy (CLIENT_ID h))); cbn [List.filter is_network app];
    (split; [|reflexivity]); cbn [List.filter is_sync_start];
    rewrite !append_cons; reflexivity.
Qed.

Lemma main_startup_trace (h : host) (w : world) :
  exists (m : log_msg) (evs : list event),
    w_trace (snd (main_startup h w))
    = (w_trace w ++ preamble h
       ++ [EvGet (health_url h) 5; EvLog m] ++ sync_start :: evs)%list
    /\ is_sync_start (EvLog m) = false
    /\ List.filter is_sync_start evs = []
    /\ (remote_enabled h = false -> List.filter is_network evs = []).
Proof.
  rewrite main_startup_run.
  destruct (check_server_total h (add_events (preamble h) w))
    as (b & m & -> & Hm). cbn [snd].
  destruct (job_full_sync_effect h
              (add_events [EvGet (health_url h) 5; EvLog m]
                 (add_events (preamble h) w)))
    as (evs & T & _ & S & _ & N).
  destruct (job_full_sync h _) as [[[]|e] w2]; cbn [fst snd] in *.
  - exists m, (evs ++ [scheduler_running])%list. cbn [w_trace add_events register_jobs].
    rewrite T. cbn [w_trace add_events]. rewrite <- !app_assoc. cbn [app].
    split; [reflexivity|]. split; [exact Hm|].
    rewrite !List.filter_app, S. split; [reflexivity|].
    intros Hoff. now rewrite (N Hoff).
  - exists m, evs. rewrite T. cbn [w_trace add_events].
    rewrite <- !app_assoc. cbn [app]. auto.
Qed.

Lemma new_events_app (w w' : world) (evs : list event) :
  w_trace w' = (w_trace w ++ evs)%list -> new_events w w' = evs.
Proof. unfold new_events. intros ->. apply drop_app_length. Qed.

Lemma main_startup_jobs (h : host) (w : world) :
  fst (main_startup h w) = Ok tt ->
  w_jobs (snd (main_startup h w))
  = (w_jobs w ++
     [mkJob (List.length (w_jobs w)) 1 JobQuickSync
        (w_now (snd (main_startup h w)) + 1 * minute_us);
      mkJob (S (List.length (w_jobs w))) 5 JobFullSync
        (w_now (snd (main_startup h w)) + 5 * minute_us);
      mkJob (S (S (List.length (w_jobs w)))) 30 JobCheckServer
        (w_now (snd (main_startup h w)) + 30 * minute_us)])%list.
Proof.
  rewrite main_startup_run.
  destruct (check_server_total h (add_events (preamble h) w))
    as (b & m & -> & _). cbn [snd].
  destruct (job_full_sync_effect h
              (add_events [EvGet (health_url h) 5; EvLog m]
                 (add_events (preamble h) w))) as (evs & _ & J & _).
  destruct (job_full_sync h _) as [[[]|e] w2]; cbn [fst snd] in *;
    [|discriminate].
  intros _. cbn. now rewrite J.
Qed.

Lemma main_after_startup (h : host) (ticks : nat) (w : world) :
  fst (main_startup h w) = Ok tt ->
  main h ticks w = main_loop h ticks (snd (main_startup h w)).
Proof.
  unfold main. run_M.
  destruct (main_startup h w) as [[[]|e] w1]; cbn; [reflexivity|discriminate].
Qed.


Lemma sample_host_healthy (env : gmap string string) (get : res response) :
  healthy (sample_host env WriteOk http_ok get []).
Proof. repeat split; intros; try reflexivity; discriminate. Qed.


Lemma run_check_job_events (h : host) (j : job) (w : world) :
  j_func j = JobCheckServer ->
  exists m, new_events w (snd (_run_job h j w))
            = [EvGet (health_url h) 5; EvLog m].
Proof.
  intros Hj. unfold _run_job. rewrite Hj. unfold call_job. run_M.
  destruct (check_server_total h w) as (b & m & -> & _). cbn.
  exists m. apply (new_events_app w). reflexivity.
Qed.

(** C10.  Whatever the configuration, [check_server] issues the GET to the
    health endpoint, and nothing else on the network.  [main] calls it
    before the first sync, right after its opening log lines; when the
    start-up completes the check is registered with an interval of 30
    minutes, and every run of that job issues the GET again.  With privacy
    mode on, or with an empty client identity, the GET is the one network
    call of the start-up. *)
Theorem check_server_queries_in_every_configuration
    (h : host) (now : Z) (files : gmap path cache_file) :
  let w0 := boot now files in
  let w1 := snd (main_startup h w0) in
  (forall w, exists m,
      new_events w (snd (check_server h w)) = [EvGet (health_url h) 5; EvLog m])
  /\ (exists m rest,
        new_events w0 w1
        = (preamble h ++ EvGet (health_url h) 5 :: EvLog m :: sync_start :: rest)%list
        /\ List.filter is_network (preamble h) = [])
  /\ (fst (main_startup h w0) = Ok tt ->
      In (30, JobCheckServer) (map job_sig (w_jobs w1)))
  /\ (forall j w, j_func j = JobCheckServer ->
        exists m, new_events w (snd (_run_job h j w))
                  = [EvGet (health_url h) 5; EvLog m])
  /\ (PRIVACY_MODE h = true \/ CLIENT_ID h = "" ->
      List.filter is_network (new_events w0 w1) = [EvGet (health_url h) 5]).
Proof.
  cbn zeta.
  destruct (main_startup_trace h (boot now files)) as (m & evs & T & Hm & S & N).
  split; [|split; [|split; [|split]]].
  - intros w. destruct (check_server_total h w) as (b & m' & -> & _).
    exists m'. apply new_events_add.
  - exists m, evs. split; [|apply preamble_quiet].
    now rewrite (new_events_app _ _ _ T).
  - intros Hok. rewrite (main_startup_jobs h _ Hok). cbn. auto.
  - apply run_check_job_events.
  - intros Hoff. apply remote_enabled_false in Hoff.
    rewrite (new_events_app _ _ _ T).
    rewrite !List.filter_app, (proj2 (preamble_quiet h)).
    cbn [List.filter app is_network]. now rewrite (N Hoff).
Qed.

(** Privacy mode on: the start-up still calls the health endpoint, and
    makes no other network call. *)
Lemma check_server_privacy_witness :
  let h := sample_host env_private WriteOk http_ok http_ok [] in
  List.filter is_network
    (new_events (boot noon ∅) (snd (main_startup h (boot noon ∅))))
  = [EvGet "https://mcp.kryv.network/health" 5].
Proof.
  cbn zeta.
  destruct (check_server_queries_in_every_configuration
              (sample_host env_private WriteOk http_ok http_ok []) noon ∅)
    as (_ & _ & _ & _ & Hoff).
  apply Hoff. left. vm_compute. reflexivity.
Defined.

(** *** Runs of the sample hosts *)

Example gmtime_noon : isoformat (gmtime noon) = "2024-03-05T10:00:00".
Proof. reflexivity. Qed.

(** Half an hour of the loop with privacy mode on: the health endpoint is
    asked a second time when the 30 minutes are over, not before; nothing
    is ever posted; the full sync has run at the start and six times
    since. *)
Example private_agent_first_half_hour :
  let h := sample_host env_private WriteOk http_ok http_ok [] in
  let gets n := List.length (List.filter is_get (w_trace (snd (main h n (boot noon ∅))))) in
  gets 180%nat = 1%nat /\ gets 181%nat = 2%nat
  /\ List.filter is_post (w_trace (snd (main h 181 (boot noon ∅)))) = []
  /\ syncs_started (w_trace (snd (main h 181 (boot noon ∅)))) = 7%nat.
Proof. cbn zeta. repeat split; vm_compute; reflexivity. Qed.

(** The recent-files collector in a folder that holds an entry it may not
    stat: the scan of that folder ends there, the collector returns. *)
Example locked_folder_is_left_early :
  fst (collect_local_files
         (host_with [((["home"; "ubuntu"; "Documents"])%list, locked_documents)])
         None (boot noon ∅))
  = Ok (mkLocalFiles
          [mkFileRec "seen.txt" "Documents/seen.txt" 0 "2024-03-05T09:59:00" ".txt"]
          1 ["/home/ubuntu/Documents"; "/home/ubuntu/Downloads";
             "/home/ubuntu/Desktop"]).
Proof. vm_compute. reflexivity. Qed.

(** * Further properties of the agent *)

(** *** Cache files of different sources *)

Lemma string_length_append (a b : string) :
  String.length (a ++ b) = (String.length a + String.length b)%nat.
Proof.
  induction a as [|c a IH]; [reflexivity|]. rewrite append_cons. cbn. now rewrite IH.
Qed.







(** *** The time stamp of a stored snapshot *)

Lemma dict_get_set_ne (k k' : string) (v : json) (d : dict) :
  k <> k' -> dict_get k' (dict_set k v d) = dict_get k' d.
Proof.
  intros Hne. induction d as [|[k0 v0] d IH]; cbn.
  - destruct (String.eqb_spec k' k); [congruence|reflexivity].
  - destruct (String.eqb_spec k k0) as [->|Hk]; cbn.
    + destruct (String.eqb_spec k' k0); [congruence|reflexivity].
    + destruct (String.eqb k' k0); [reflexivity|exact IH].
Qed.

Lemma dict_set_present_keys (k : string) (v v0 : json) (d : dict) :
  dict_get k d = Some v0 -> keys (dict_set k v d) = keys d.
Proof.
  unfold keys. induction d as [|[k0 v1] d IH]; cbn; [discriminate|].
  destruct (String.eqb k k0); cbn; [reflexivity|].
  intros H. now rewrite IH.
Qed.

Lemma dict_set_absent_keys (k : string) (v : json) (d : dict) :
  dict_get k d = None -> keys (dict_set k v d) = (keys d ++ [k])%list.
Proof.
  intros H. rewrite (dict_set_absent k v d H). unfold keys.
  now rewrite map_app.
Qed.

(** X2.  The document [push_context] stores always carries the time of the
    call under [updated_at], also when the data has that key already: then
    the old value is replaced where it stands and no key is added;
    otherwise the key is appended.  Every other key keeps its value. *)
Theorem push_context_stamp_replaces_updated_at
    (h : host) (source : string) (data : dict) (w : world) :
  fs_write h (w_now w) (cache_path source) = WriteOk ->
  exists doc : dict,
    read_cache (cache_path source) (snd (push_context h source data w)) = Some doc
    /\ dict_get "updated_at" doc = Some (JStr (isoformat (utc_of h (w_now w))))
    /\ (forall k, k <> "updated_at" -> dict_get k doc = dict_get k data)
    /\ (forall old, dict_get "updated_at" data = Some old -> keys doc = keys data)
    /\ (dict_get "updated_at" data = None ->
        keys doc = (keys data ++ ["updated_at"])%list).
Proof.
  intros Hwr. exists (stamped h (w_now w) data).
  split; [now apply push_context_stores|]. unfold stamped.
  split; [apply dict_get_set|].
  split; [intros k Hk; apply dict_get_set_ne; congruence|].
  split; [intros old; apply dict_set_present_keys|apply dict_set_absent_keys].
Qed.

(** Data with a stale [updated_at] between two other keys: the stamp takes
    its place. *)
Lemma push_context_stamp_witness :
  let h := sample_host env_private WriteOk http_ok http_ok [] in
  exists doc : dict,
    read_cache (cache_path "system_info")
      (snd (push_context h "system_info" stale_data (boot noon ∅))) = Some doc
    /\ keys doc = ["cpu_percent"; "updated_at"; "hostname"]
    /\ dict_get "updated_at" doc = Some (JStr "2024-03-05T10:00:00").
Proof.
  cbn zeta.
  destruct (push_context_stamp_replaces_updated_at
              (sample_host env_private WriteOk http_ok http_ok [])
              "system_info" stale_data (boot noon ∅) eq_refl)
    as (doc & Hread & Hstamp & _ & Hkeys & _).
  exists doc. split; [exact Hread|]. split.
  - apply (Hkeys (JStr "yesterday")). reflexivity.
  - exact Hstamp.
Defined.

(** *** Delivery failures *)

(** X3.  Once the cache file is written, it holds the stamped data whatever
    the network does afterwards.  The call then fails only when remote
    delivery is on and the POST raises an exception that is not a
    [requests.RequestException]; that exception comes out of the call. *)
Theorem push_context_cache_survives_delivery
    (h : host) (source : string) (data : dict) (w : world) :
  fs_write h (w_now w) (cache_path source) = WriteOk ->
  let out := push_context h source data w in
  read_cache (cache_path source) (snd out) = Some (stamped h (w_now w) data)
  /\ (forall e, fst out = Raise e <->
        remote_enabled h = true
        /\ http_post h (w_now w) (PUSH_URL h) (envelope h source data) = Raise e
        /\ is_RequestException e = false).
Proof.
  intros Hwr. cbn zeta. split; [now apply push_context_stores|].
  intros e. rewrite push_context_run. cbn zeta. rewrite Hwr.
  unfold deliver_run.
  change (w_now (add_events _ (put_file _ _ w))) with (w_now w).
  destruct (remote_enabled h).
  - destruct (http_post _ _ _ _) as [r|x].
    + cbn. split; [discriminate|]. intros (_ & H & _). discriminate.
    + destruct (is_RequestException x) eqn:Hx; cbn.
      * split; [discriminate|]. intros (_ & [= <-] & H). congruence.
      * split; [intros [= <-]; auto|]. intros (_ & [= <-] & _). reflexivity.
  - cbn. split; [discriminate|]. intros (H & _). discriminate.
Qed.

Lemma push_context_cache_survives_witness :
  let h := sample_host env_remote WriteOk (Raise ValueError) http_ok [] in
  let out := push_context h "system_info" sample_data (boot noon ∅) in
  read_cache (cache_path "system_info") (snd out)
    = Some (stamped h noon sample_data)
  /\ fst out = Raise ValueError.
Proof.
  cbn zeta.
  destruct (push_context_cache_survives_delivery
              (sample_host env_remote WriteOk (Raise ValueError) http_ok [])
              "system_info" sample_data (boot noon ∅) eq_refl) as (Hr & He).
  split; [exact Hr|]. apply He. repeat split.
Defined.

(** *** The clipboard and system collectors *)

(** X4.  [collect_clipboard] never raises and changes nothing.  It reports
    content exactly when [xclip] ran, exited with code 0 and printed
    something; the content is then the first 500 characters of the output
    (all of it when shorter).  In every other case - [xclip] missing, timed
    out, failed or silent - it reports the record without content. *)
Theorem collect_clipboard_total_and_truncated (h : host) (w : world) :
  exists d : dict,
    collect_clipboard h w = (Ok d, w)
    /\ (dict_get "has_content" d = Some (JBool true) <->
        exists out, xclip h (w_now w) = Ok (0, out) /\ out <> "")
    /\ (forall out, xclip h (w_now w) = Ok (0, out) -> out <> "" ->
        exists c rest,
          dict_get "content" d = Some (JStr c)
          /\ out = c ++ rest
          /\ String.length c = Nat.min 500 (String.length out))
    /\ (dict_get "has_content" d <> Some (JBool true) -> d = clipboard_absent).
Proof.
  rewrite collect_clipboard_run. eexists. split; [reflexivity|].
  destruct (xclip h (w_now w)) as [[rc out]|e].
  - destruct (Z.eqb_spec rc 0) as [->|Hrc]; cbn [andb].
    + unfold truthy. destruct (String.eqb_spec out "") as [->|Hout]; cbn.
      * split; [|split].
        -- split; [discriminate|]. intros (o & [= <-] & H). contradiction.
        -- intros o [= <-] H. contradiction.
        -- reflexivity.
      * split; [|split].
        -- split; [eauto|reflexivity].
        -- intros o [= <-] _.
           destruct (slice_to_spec 500 out) as (rest & Hs & Hl). eauto.
        -- intros H. now contradiction H.
    + cbn. split; [|split].
      * split; [discriminate|]. intros (o & [= -> _] & _). contradiction.
      * intros o [= -> _]. contradiction.
      * reflexivity.
  - cbn. split; [|split].
    + split; [discriminate|]. intros (o & H & _). discriminate.
    + intros o H. discriminate.
    + reflexivity.
Qed.


Lemma collect_clipboard_witness :
  let h := with_xclip (Ok (0, "copied text")) empty_host in
  exists d c rest,
    collect_clipboard h (boot noon ∅) = (Ok d, boot noon ∅)
    /\ dict_get "content" d = Some (JStr c)
    /\ "copied text" = c ++ rest
    /\ String.length c = Nat.min 500 (String.length "copied text").
Proof.
  cbn zeta.
  destruct (collect_clipboard_total_and_truncated
              (with_xclip (Ok (0, "copied text")) empty_host) (boot noon ∅))
    as (d & Hrun & _ & Hc & _).
  destruct (Hc "copied text" eq_refl) as (c & rest & H1 & H2 & H3);
    [discriminate|].
  exists d, c, rest. auto.
Defined.

(** *** More on the recent-files collector *)




Lemma collect_local_files_result (h : host) (o : option (list path)) (w : world) :
  collect_local_files h o w
  = (match scan_dirs h (w_now w) (w_now w - day_us) (watch_dirs_of h o) [] with
     | Ok files =>
         Ok (mkLocalFiles (take 50 (sort_desc f_modified files))
               (List.length (sort_desc f_modified files))
               (map str_abs (watch_dirs_of h o)))
     | Raise x => Raise x
     end, w).
Proof.
  unfold collect_local_files. run_M.
  destruct o; cbn [watch_dirs_of]; fold (default_watch_dirs h);
    now destruct (scan_dirs h _ _ _ _).
Qed.

(** X6.  Whatever [collect_local_files] returns, the list has at most 50
    records and [count] is not smaller than the list: the list is as long
    as the smaller of 50 and [count].  [watched_dirs] names the directories
    that were asked for, the three default folders of the home when none
    was given, whether they exist or not.  The collector changes nothing. *)
Theorem collect_local_files_window (h : host) (o : option (list path))
    (w : world) (r : local_files) :
  fst (collect_local_files h o w) = Ok r ->
  List.length (recent_files r) = Nat.min 50 (lf_count r)
  /\ watched_dirs r = map str_abs (watch_dirs_of h o)
  /\ snd (collect_local_files h o w) = w.
Proof.
  rewrite collect_local_files_result. cbn [fst snd].
  destruct (scan_dirs h _ _ _ _) as [files|x]; [|discriminate].
  intros [= <-]. cbn [recent_files lf_count watched_dirs].
  split; [apply length_take|]. auto.
Qed.

Lemma collect_local_files_window_witness :
  let h := host_with [(home_watch, three_fresh_one_stale)] in
  exists r, fst (collect_local_files h (Some [home_watch]) (boot noon ∅)) = Ok r
    /\ List.length (recent_files r) = Nat.min 50 (lf_count r)
    /\ watched_dirs r = ["/home/ubuntu/watch"].
Proof.
  cbn zeta. eexists. split; [vm_compute; reflexivity|].
  destruct (collect_local_files_window
              (host_with [(home_watch, three_fresh_one_stale)])
              (Some [home_watch]) (boot noon ∅) _ eq_refl) as (Hl & Hd & _).
  split; [exact Hl|exact Hd].
Defined.





(** *** More on the notes collector *)

Lemma note_entry_ok_statable (h : host) (d : path) (e : entry) :
  is_Ok (note_entry h d e) = statable e.
Proof.
  unfold note_entry, statable. destruct (is_file e) as [b|x]; cbn; [|reflexivity].
  destruct (b && bool_decide _); [|reflexivity].
  now destruct (mk_note_rec h d e).
Qed.

Lemma scan_notes_ok (h : host) (d : path) (es : list entry) :
  forall found, is_Ok (scan_notes h d es found) = forallb statable es.
Proof.
  induction es as [|e es IH]; intros found; cbn [scan_notes forallb];
    [reflexivity|].
  rewrite <- (note_entry_ok_statable h d e).
  destruct (note_entry h d e) as [[r|]|x]; cbn; [apply IH|apply IH|reflexivity].
Qed.

Lemma scan_note_dirs_ok (h : host) (now : Z) (ds : list path) :
  forall found, is_Ok (scan_note_dirs h now ds found) = dirs_statable h now ds.
Proof.
  induction ds as [|d ds IH]; intros found; cbn [scan_note_dirs]; [reflexivity|].
  unfold dirs_statable in *. cbn [forallb].
  destruct (fs_exists h now d); cbn [negb orb]; [|apply IH].
  rewrite <- (scan_notes_ok h d (fs_rglob h now d) found).
  destruct (scan_notes h d (fs_rglob h now d) found) as [found'|x]; cbn;
    [apply IH|reflexivity].
Qed.

Lemma collect_notes_returns_iff_statable_aux (h : host) (w : world) :
  is_Ok (fst (collect_notes h w)) = dirs_statable h (w_now w) (note_dirs h)
  /\ snd (collect_notes h w) = w.
Proof.
  split; [|apply collect_notes_world].
  rewrite <- (scan_note_dirs_ok h (w_now w) (note_dirs h) []).
  unfold collect_notes. run_M.
  now destruct (scan_note_dirs h _ _ _).
Qed.


Lemma strip_length (s : string) : (String.length (strip s) <= String.length s)%nat.
Proof.
  destruct (strip_spec s) as (l & r & Hs & _).
  apply (f_equal String.length) in Hs.
  rewrite !string_length_append in Hs. lia.
Qed.

Lemma all_space_lstrip (s : string) : all_space s = true -> lstrip s = "".
Proof.
  induction s as [|c s IH]; cbn; [reflexivity|].
  destruct (isspace c); cbn; [exact IH|discriminate].
Qed.

Lemma all_space_split (s : string) : all_space s = true -> split s = [].
Proof.
  unfold split. induction s as [|c s IH]; cbn; [reflexivity|].
  destruct (isspace c); cbn; [exact IH|discriminate].
Qed.

Lemma all_space_slice (n : nat) : forall s,
  all_space s = true -> all_space (slice_to n s) = true.
Proof.
  unfold slice_to. induction n as [|n IH]; intros [|c s]; cbn; auto.
  destruct (isspace c); cbn; [apply IH|discriminate].
Qed.

(** X10.  Whatever [collect_notes] returns, the list has at most 20 notes:
    it is as long as the smaller of 20 and [count].  No preview is longer
    than 200 characters.  A note that is empty or holds whitespace only
    has the empty preview and a word count of 0. *)
Theorem collect_notes_window (h : host) (w : world) (r : notes_result) :
  fst (collect_notes h w) = Ok r ->
  List.length (notes r) = Nat.min 20 (n_count r)
  /\ (forall n, In n (notes r) -> (String.length (n_preview n) <= 200)%nat)
  /\ (forall m content,
        all_space content = true ->
        n_preview (note_record h (m, content)) = ""
        /\ n_word_count (note_record h (m, content)) = 0%nat).
Proof.
  intros Hr.
  assert (Hs : dirs_statable h (w_now w) (note_dirs h) = true).
  { rewrite <- (proj1 (collect_notes_returns_iff_statable_aux h w)). now rewrite Hr. }
  rewrite (collect_notes_run h w Hs) in Hr. cbn [fst] in Hr.
  injection Hr as <-. cbn [notes n_count].
  split; [|split].
  - now rewrite length_map, length_take, newest_first_length.
  - intros n Hn. apply in_map_iff in Hn as ([m content] & <- & _).
    cbn [n_preview note_record snd].
    destruct (slice_to_spec 200 content) as (rest & _ & Hl).
    pose proof (strip_length (slice_to 200 content)). lia.
  - intros m content Hc. cbn [n_preview n_word_count note_record snd]. split.
    + unfold strip. now rewrite (all_space_lstrip _ (all_space_slice 200 _ Hc)).
    + now rewrite (all_space_split _ Hc).
Qed.

Lemma collect_notes_window_witness :
  let h := host_with [(["home"; "ubuntu"; "Notes"], some_notes)] in
  exists r, fst (collect_notes h (boot noon ∅)) = Ok r
    /\ List.length (notes r) = Nat.min 20 (n_count r)
    /\ forall n, In n (notes r) -> (String.length (n_preview n) <= 200)%nat.
Proof.
  cbn zeta. eexists. split; [vm_compute; reflexivity|].
  destruct (collect_notes_window
              (host_with [(["home"; "ubuntu"; "Notes"], some_notes)])
              (boot noon ∅) _ eq_refl) as (Hl & Hp & _).
  split; [exact Hl|exact Hp].
Defined.

(** A note folder with an entry that may not be stat-ed: the recent-files
    collector gets past it, the notes collector does not. *)
Example locked_folder_stops_notes :
  fst (collect_notes
         (host_with [((["home"; "ubuntu"; "Documents"])%list, locked_documents)])
         (boot noon ∅))
  = Raise PermissionError.
Proof. vm_compute. reflexivity. Qed.

(** *** The sync jobs *)

Lemma push_context_events (h : host) (source : string) (data : dict) (w : world) :
  exists evs,
    w_trace (snd (push_context h source data w)) = (w_trace w ++ evs)%list
    /\ opened evs = [cache_path source]
    /\ texts evs = []
    /\ (List.length (posts evs) <= 1)%nat
    /\ gets evs = []
    /\ List.filter is_sleep evs = []
    /\ (remote_enabled h = false -> posts evs = []).
Proof.
  rewrite push_context_run. cbn zeta.
  destruct (fs_write h (w_now w) (cache_path source)).
  - unfold deliver_run. destruct (remote_enabled h).
    + destruct (http_post _ _ _ _) as [r|e].
      * eexists. cbn. rewrite <- app_assoc.
        repeat split; try discriminate; destruct (ok r); cbn; auto.
      * destruct (is_RequestException e); eexists; cbn; rewrite <- app_assoc;
          repeat split; try discriminate; cbn; auto.
    + eexists. cbn. rewrite <- app_assoc. repeat split; cbn; auto.
  - eexists. cbn. repeat split; cbn; auto.
  - eexists. cbn. repeat split; cbn; auto.
Qed.

Ltac push_events h src d w1 w2 e T O X P G S N :=
  destruct (push_context_events h src d w1) as (e & T & O & X & P & G & S & N);
  unfold texts, opened, posts, gets in O, X, P, G, N;
  destruct (push_context h src d w1) as [[[]|?] w2];
  cbn [fst snd] in T |- *.

Ltac close_leaf :=
  repeat split; auto; try discriminate; try lia;
  try (eexists; reflexivity);
  try (let Hoff := fresh "Hoff" in
       intros Hoff;
       repeat match goal with
              | H : _ = false -> _ = [] |- _ => rewrite (H Hoff); clear H
              end;
       reflexivity).

Lemma job_full_sync_events (h : host) (w : world) :
  exists evs,
    w_trace (snd (job_full_sync h w)) = (w_trace w ++ evs)%list
    /\ texts evs = "Starting full sync..."
                   :: (if is_Ok (fst (job_full_sync h w))
                       then ["Full sync complete."] else [])
    /\ opened evs `prefix_of` sync_files
    /\ (fst (job_full_sync h w) = Ok tt -> opened evs = sync_files)
    /\ (List.length (posts evs) <= 3)%nat
    /\ gets evs = []
    /\ List.filter is_sleep evs = []
    /\ (remote_enabled h = false -> posts evs = []).
Proof.
  unfold job_full_sync. run_M.
  destruct (collect_system_info_world h
              (mkWorld (w_now w) (w_files w) (w_jobs w)
                 (w_trace w ++ [EvLog (MsgText "Starting full sync...")])%list))
    as (d & w1 & -> & T1 & _). cbn [w_trace] in T1.
  unfold texts, opened, posts, gets, sync_files.
  push_events h "system_info" d w1 w2 e1 T2 O2 X2 P2 G2 S2 N2.
  2:{ exists (EvLog (MsgText "Starting full sync...") :: e1).
      rewrite T2, T1, <- app_assoc. cbn.
      rewrite O2, X2, G2, S2. close_leaf. }
  pose proof (collect_local_files_world h None w2) as W3.
  destruct (collect_local_files h None w2) as [[files|x] w3];
    cbn [fst snd] in W3 |- *; subst w3.
  2:{ exists (EvLog (MsgText "Starting full sync...") :: e1).
      rewrite T2, T1, <- app_assoc. cbn.
      rewrite O2, X2, G2, S2. close_leaf. }
  push_events h "local_files" (local_files_json files) w2 w4 e2 T3 O3 X3 P3 G3 S3 N3.
  2:{ exists (EvLog (MsgText "Starting full sync...") :: e1 ++ e2)%list.
      rewrite T3, T2, T1, <- !app_assoc. cbn.
      rewrite !omap_app, !List.filter_app, O2, O3, X2, X3, G2, G3, S2, S3.
      rewrite length_app.
      close_leaf. }
  pose proof (collect_notes_world h w4) as W4.
  destruct (collect_notes h w4) as [[found|x] w5];
    cbn [fst snd] in W4 |- *; subst w5.
  2:{ exists (EvLog (MsgText "Starting full sync...") :: e1 ++ e2)%list.
      rewrite T3, T2, T1, <- !app_assoc. cbn.
      rewrite !omap_app, !List.filter_app, O2, O3, X2, X3, G2, G3, S2, S3.
      rewrite length_app.
      close_leaf. }
  push_events h "local_notes" (notes_json found) w4 w6 e3 T4 O4 X4 P4 G4 S4 N4.
  2:{ exists (EvLog (MsgText "Starting full sync...") :: e1 ++ e2 ++ e3)%list.
      rewrite T4, T3, T2, T1, <- !app_assoc. cbn.
      rewrite !omap_app, !List.filter_app, O2, O3, O4, X2, X3, X4,
        G2, G3, G4, S2, S3, S4.
      rewrite !length_app.
      close_leaf. }
  exists (EvLog (MsgText "Starting full sync...")
          :: e1 ++ e2 ++ e3 ++ [EvLog (MsgText "Full sync complete.")])%list.
  rewrite T4, T3, T2, T1, <- !app_assoc. cbn.
  rewrite !omap_app, !List.filter_app, O2, O3, O4, X2, X3, X4,
    G2, G3, G4, S2, S3, S4.
  rewrite !length_app. cbn.
  close_leaf.
Qed.

(** X11.  [job_full_sync] logs "Starting full sync..." first and "Full sync
    complete." last, the latter exactly when it returns normally.  The
    cache files it opens are, in this order, those of system_info,
    local_files and local_notes - all three when it returns normally, and
    otherwise the ones up to the step that raised: nothing is written for
    the sources behind it.  It issues at most three POSTs, none when
    remote delivery is off, and no GET. *)
Theorem job_full_sync_order_and_abort (h : host) (w : world) :
  let out := job_full_sync h w in
  let evs := new_events w (snd out) in
  texts evs = "Starting full sync..."
              :: (if is_Ok (fst out) then ["Full sync complete."] else [])
  /\ opened evs `prefix_of` sync_files
  /\ (fst out = Ok tt -> opened evs = sync_files)
  /\ (List.length (posts evs) <= 3)%nat
  /\ gets evs = []
  /\ (remote_enabled h = false -> posts evs = []).
Proof.
  cbn zeta.
  destruct (job_full_sync_events h w) as (evs & T & X & O & O' & P & G & _ & N).
  rewrite (new_events_app _ _ _ T). auto 10.
Qed.

(** The cache can be written the first time and not after: the sync stops
    at the second source. *)
Lemma job_full_sync_abort_witness :
  let h := mkHost env_remote ["home"; "ubuntu"] gmtime gmtime
             (fun _ p => if bool_decide (p = cache_path "system_info")
                         then WriteOk else OpenFails (OSError "ENOSPC"))
             (fun _ _ => false) (fun _ _ => [])
             (fun _ _ _ => http_ok) (fun _ _ => http_ok)
             (fun _ => None) "Linux" "oracle-vm"
             (fun _ => Raise FileNotFoundError) in
  let out := job_full_sync h (boot noon ∅) in
  fst out = Raise (OSError "ENOSPC")
  /\ texts (new_events (boot noon ∅) (snd out)) = ["Starting full sync..."]
  /\ opened (new_events (boot noon ∅) (snd out))
     = [cache_path "system_info"; cache_path "local_files"].
Proof.
  cbn zeta. split; [vm_compute; reflexivity|].
  match goal with
  | |- context [job_full_sync ?h ?w] =>
      destruct (job_full_sync_order_and_abort h w) as (X & _)
  end.
  split; [rewrite X|]; vm_compute; reflexivity.
Defined.

Lemma job_quick_sync_run (h : host) (w : world) :
  exists d w1,
    collect_system_info h w = (Ok d, w1)
    /\ w_trace w1 = w_trace w
    /\ job_quick_sync h w = push_context h "system_info" d w1.
Proof.
  destruct (collect_system_info_world h w) as (d & w1 & E & T & _).
  exists d, w1. split; [exact E|]. split; [exact T|].
  unfold job_quick_sync. run_M. now rewrite E.
Qed.

Lemma job_quick_sync_events (h : host) (w : world) :
  exists evs,
    w_trace (snd (job_quick_sync h w)) = (w_trace w ++ evs)%list
    /\ opened evs = [cache_path "system_info"]
    /\ texts evs = []
    /\ (List.length (posts evs) <= 1)%nat
    /\ gets evs = []
    /\ List.filter is_sleep evs = []
    /\ (remote_enabled h = false -> posts evs = []).
Proof.
  destruct (job_quick_sync_run h w) as (d & w1 & _ & T & ->).
  rewrite <- T. apply push_context_events.
Qed.

(** X12.  [job_quick_sync] is one push of the system record: it opens the
    cache file of system_info and no other, issues at most one POST (none
    when remote delivery is off) and no GET, logs none of the fixed lines,
    and fails only as that push fails. *)
Theorem job_quick_sync_is_one_push (h : host) (w : world) :
  let evs := new_events w (snd (job_quick_sync h w)) in
  opened evs = [cache_path "system_info"]
  /\ (List.length (posts evs) <= 1)%nat
  /\ gets evs = []
  /\ texts evs = []
  /\ (remote_enabled h = false -> posts evs = [])
  /\ exists d w1,
       collect_system_info h w = (Ok d, w1)
       /\ job_quick_sync h w = push_context h "system_info" d w1.
Proof.
  cbn zeta.
  destruct (job_quick_sync_events h w) as (evs & T & O & X & P & G & _ & N).
  rewrite (new_events_app _ _ _ T).
  destruct (job_quick_sync_run h w) as (d & w1 & E & _ & R).
  repeat split; auto. now exists d, w1.
Qed.

(** *** What a whole run adds to the trace *)

Lemma adds_ret {A} (P : event -> bool) (a : A) : adds P (ret a).
Proof. intros w. exists []. now rewrite app_nil_r. Qed.

Lemma adds_bind {A B} (P : event -> bool) (m : M A) (k : A -> M B) :
  adds P m -> (forall a, adds P (k a)) -> adds P (bind m k).
Proof.
  intros Hm Hk w. unfold bind.
  destruct (Hm w) as (e1 & T1 & P1).
  destruct (m w) as [[a|x] w1]; cbn [snd] in *.
  - destruct (Hk a w1) as (e2 & T2 & P2).
    exists (e1 ++ e2)%list. rewrite T2, T1, <- app_assoc.
    split; [reflexivity|]. now rewrite forallb_app, P1, P2.
  - now exists e1.
Qed.

Lemma adds_silent {A} (P : event -> bool) (m : M A) :
  (forall w, w_trace (snd (m w)) = w_trace w) -> adds P m.
Proof. intros H w. exists []. now rewrite app_nil_r, H. Qed.

Lemma adds_emit (P : event -> bool) (ev : event) :
  P ev = true -> adds P (emit ev).
Proof. intros H w. exists [ev]. cbn. now rewrite H. Qed.

Lemma offline_events (h : host) (evs : list event) :
  posts evs = [] -> gets evs = [] -> forallb (allowed_offline h) evs = true.
Proof.
  unfold posts, gets.
  induction evs as [|ev evs IH]; cbn; [reflexivity|].
  destruct ev; cbn; try discriminate; auto.
Qed.

Lemma adds_call_job (h : host) (f : job_fun) :
  remote_enabled h = false -> adds (allowed_offline h) (call_job h f).
Proof.
  intros Hoff. destruct f; unfold call_job, mbind, M_bind.
  - apply adds_bind; [|intros; apply adds_ret].
    intros w. destruct (job_quick_sync_events h w) as (evs & T & _ & _ & _ & G & _ & N).
    exists evs. split; [exact T|]. apply offline_events; auto.
  - apply adds_bind; [|intros; apply adds_ret].
    intros w. destruct (job_full_sync_events h w) as (evs & T & _ & _ & _ & _ & G & _ & N).
    exists evs. split; [exact T|]. apply offline_events; auto.
  - apply adds_bind; [|intros; apply adds_ret].
    intros w. destruct (check_server_total h w) as (b & m & -> & _).
    eexists. split; [reflexivity|]. cbn. now rewrite String.eqb_refl.
Qed.

Lemma adds_run_job (h : host) (j : job) :
  remote_enabled h = false -> adds (allowed_offline h) (_run_job h j).
Proof.
  intros Hoff. unfold _run_job, mbind, M_bind, mret, M_ret.
  apply adds_bind; [now apply adds_call_job|]. intros r.
  apply adds_bind; [now apply adds_silent|]. intros now.
  apply adds_bind; [now apply adds_silent|]. intros js.
  apply adds_bind; [now apply adds_silent|]. intros _.
  destruct (is_cancel r); [|apply adds_ret].
  apply adds_bind; [now apply adds_silent|]. intros js'. now apply adds_silent.
Qed.

Lemma adds_for_each {A} (P : event -> bool) (f : A -> M unit) (l : list A) :
  (forall x, adds P (f x)) -> adds P (for_each f l).
Proof.
  intros Hf. induction l as [|x l IH]; cbn [for_each].
  - apply adds_ret.
  - apply adds_bind; [apply Hf|]. intros _. exact IH.
Qed.

Lemma adds_main_loop (h : host) (ticks : nat) :
  remote_enabled h = false -> adds (allowed_offline h) (main_loop h ticks).
Proof.
  intros Hoff. induction ticks as [|n IH]; cbn [main_loop].
  - apply adds_ret.
  - unfold mbind, M_bind. apply adds_bind.
    + unfold run_pending, mbind, M_bind.
      apply adds_bind; [now apply adds_silent|]. intros now.
      apply adds_bind; [now apply adds_silent|]. intros js.
      apply adds_for_each. intros j. now apply adds_run_job.
    + intros _. apply adds_bind; [|intros _; exact IH].
      unfold sleep, mbind, M_bind.
      apply adds_bind; [now apply adds_emit|]. intros _. now apply adds_silent.
Qed.

Lemma no_network_offline (h : host) (evs : list event) :
  List.filter is_network evs = [] -> forallb (allowed_offline h) evs = true.
Proof.
  induction evs as [|ev evs IH]; cbn; [reflexivity|].
  destruct ev; cbn; try discriminate; auto.
Qed.

Lemma adds_main_startup (h : host) :
  remote_enabled h = false -> adds (allowed_offline h) (main_startup h).
Proof.
  intros Hoff w.
  destruct (main_startup_trace h w) as (m & evs & T & _ & _ & N).
  eexists. split; [exact T|].
  assert (Hpre : forallb (allowed_offline h) (preamble h) = true).
  { unfold preamble. rewrite forallb_app.
    destruct (negb (truthy (CLIENT_ID h))); reflexivity. }
  rewrite forallb_app, Hpre. cbn [app forallb allowed_offline sync_start andb].
  rewrite String.eqb_refl. cbn [Z.eqb Pos.eqb andb].
  apply no_network_offline, N, Hoff.
Qed.

(** X13.  With privacy mode on, or without a client identity, a run of
    [main] never issues a POST, however many turns its loop takes; its
    only network calls are the GETs of the health check, to the health
    endpoint with a timeout of 5 seconds. *)
Theorem main_offline_never_posts (h : host) (ticks : nat) (w : world) :
  PRIVACY_MODE h = true \/ CLIENT_ID h = "" ->
  let evs := new_events w (snd (main h ticks w)) in
  posts evs = []
  /\ Forall (fun ev => is_network ev = true -> ev = EvGet (health_url h) 5) evs.
Proof.
  intros Hoff. apply remote_enabled_false in Hoff. cbn zeta.
  assert (Hadds : adds (allowed_offline h) (main h ticks)).
  { unfold main, mbind, M_bind. apply adds_bind.
    - now apply adds_main_startup.
    - intros _. now apply adds_main_loop. }
  destruct (Hadds w) as (evs & T & Hall).
  rewrite (new_events_app _ _ _ T). clear T Hadds.
  split.
  - unfold posts. induction evs as [|ev evs IH]; cbn in *; [reflexivity|].
    apply andb_true_iff in Hall as [Hev Hall].
    destruct ev; cbn in *; try discriminate; auto.
  - rewrite forallb_forall in Hall. rewrite Forall_forall. intros ev Hev Hn.
    apply list_elem_of_In, Hall in Hev.
    destruct ev; cbn in *; try discriminate.
    apply andb_true_iff in Hev as [Hu Ht].
    apply String.eqb_eq in Hu. apply Z.eqb_eq in Ht. now subst.
Qed.

(** Half an hour without a client identity: two health checks, nothing
    posted. *)
Lemma main_offline_witness :
  let h := sample_host ∅ WriteOk http_ok http_ok [] in
  let evs := new_events (boot noon ∅) (snd (main h 181 (boot noon ∅))) in
  posts evs = []
  /\ List.filter is_network evs
     = [EvGet "https://mcp.kryv.network/health" 5;
        EvGet "https://mcp.kryv.network/health" 5].
Proof.
  cbn zeta.
  destruct (main_offline_never_posts (sample_host ∅ WriteOk http_ok http_ok [])
              181 (boot noon ∅)) as (Hp & _).
  - right. reflexivity.
  - split; [exact Hp|]. vm_compute. reflexivity.
Defined.

(** *** The lines [main] logs at start-up *)

Lemma check_server_log (h : host) (w : world) :
  exists (b : bool) (m : log_msg),
    check_server h w = (Ok b, add_events [EvGet (health_url h) 5; EvLog m] w)
    /\ texts [EvLog m] = [].
Proof.
  rewrite check_server_run. cbn zeta.
  destruct (http_get h (w_now w) (health_url h)) as [r|e]; [|eauto].
  destruct (ok r); [|eauto].
  destruct (health_fields r) as [[v d]|e]; eauto.
Qed.

Lemma texts_app (a b : list event) : texts (a ++ b) = (texts a ++ texts b)%list.
Proof. apply omap_app. Qed.

Lemma main_startup_texts (h : host) (w : world) :
  texts (new_events w (snd (main_startup h w)))
  = (texts (preamble h)
     ++ "Starting full sync..."
        :: (if is_Ok (fst (main_startup h w))
            then ["Full sync complete."; running_text] else []))%list
  /\ (is_Ok (fst (main_startup h w)) = false ->
      w_jobs (snd (main_startup h w)) = w_jobs w).
Proof.
  rewrite main_startup_run.
  destruct (check_server_log h (add_events (preamble h) w)) as (b & m & -> & Hm).
  cbn [snd].
  destruct (job_full_sync_events h
              (add_events [EvGet (health_url h) 5; EvLog m]
                 (add_events (preamble h) w)))
    as (evs & T & X & _).
  destruct (job_full_sync_effect h
              (add_events [EvGet (health_url h) 5; EvLog m]
                 (add_events (preamble h) w))) as (_ & _ & J & _).
  destruct (job_full_sync h _) as [[[]|e] w2]; cbn [fst snd is_Ok] in *.
  - split; [|discriminate].
    rewrite (new_events_app w _
               (preamble h ++ [EvGet (health_url h) 5; EvLog m] ++ evs
                ++ [scheduler_running])%list).
    + rewrite !texts_app, X. cbn in Hm |- *.
      change (texts [EvLog m]) with (texts [EvLog m]) in Hm.
      unfold texts in Hm |- *. cbn in Hm |- *.
      destruct m; try discriminate; reflexivity.
    + cbn [w_trace add_events register_jobs]. rewrite T. cbn [w_trace add_events].
      now rewrite <- !app_assoc.
  - split; [|intros _; exact J].
    rewrite (new_events_app w _
               (preamble h ++ [EvGet (health_url h) 5; EvLog m] ++ evs)%list).
    + rewrite !texts_app, X. unfold texts in Hm |- *. cbn in Hm |- *.
      destruct m; try discriminate; reflexivity.
    + rewrite T. cbn [w_trace add_events]. now rewrite <- !app_assoc.
Qed.

Lemma texts_preamble (h : host) :
  texts (preamble h)
  = (opening_lines h
     ++ (if truthy (CLIENT_ID h) then [] else [warning_text]))%list.
Proof.
  unfold preamble, opening_lines. rewrite texts_app.
  destruct (truthy (CLIENT_ID h)); reflexivity.
Qed.

(** X14.  At start-up [main] logs its four opening lines, then the warning
    about a missing KRYV_CLIENT_ID exactly when the client identity is
    empty, then the start of the full sync; "Full sync complete." and
    "Scheduler running" follow exactly when the start-up completes.  When
    it does not complete, no job has been registered. *)
Theorem main_startup_log_lines (h : host) (w : world) :
  let out := main_startup h w in
  let lines := texts (new_events w (snd out)) in
  lines = (texts (preamble h)
           ++ "Starting full sync..."
              :: (if is_Ok (fst out)
                  then ["Full sync complete."; running_text] else []))%list
  /\ (In warning_text lines <-> CLIENT_ID h = "")
  /\ (In running_text lines <-> fst out = Ok tt)
  /\ (is_Ok (fst out) = false -> w_jobs (snd out) = w_jobs w).
Proof.
  cbn zeta. destruct (main_startup_texts h w) as (Hl & Hj).
  split; [exact Hl|]. split; [|split; [|exact Hj]].
  - rewrite Hl, texts_preamble. unfold opening_lines, truthy.
    destruct (String.eqb_spec (CLIENT_ID h) "") as [Hid|Hid]; cbn [negb].
    + split; [auto|]. intros _. rewrite !in_app_iff. left. right. now left.
    + split; [|contradiction]. rewrite !in_app_iff. cbn [In].
      intros [[[H|[H|[H|[H|[]]]]]|[]]|[H|H]].
      * discriminate H.
      * rewrite append_cons in H. discriminate H.
      * rewrite append_cons in H. discriminate H.
      * rewrite append_cons in H. discriminate H.
      * discriminate H.
      * destruct (is_Ok _); cbn in H; [|contradiction].
        destruct H as [H|[H|[]]]; discriminate H.
  - rewrite Hl, texts_preamble. unfold opening_lines.
    rewrite !in_app_iff. cbn [In].
    destruct (fst (main_startup h w)) as [[]|e]; cbn [is_Ok].
    + split; [reflexivity|]. intros _. right. right. cbn. auto.
    + split; [|discriminate].
      intros [[[H|[H|[H|[H|[]]]]]|H]|[H|[]]].
      * discriminate H.
      * rewrite append_cons in H. discriminate H.
      * rewrite append_cons in H. discriminate H.
      * rewrite append_cons in H. discriminate H.
      * destruct (truthy (CLIENT_ID h)); cbn in H; [contradiction|].
        destruct H as [H|[]]. discriminate H.
      * discriminate H.
Qed.

(** No client identity and a cache that cannot be written: the warning is
    logged, the scheduler never starts. *)
Lemma main_startup_log_lines_witness :
  let h := sample_host ∅ (OpenFails PermissionError) http_ok http_ok [] in
  let lines := texts (new_events (boot noon ∅) (snd (main_startup h (boot noon ∅)))) in
  In warning_text lines /\ ~ In running_text lines.
Proof.
  cbn zeta.
  destruct (main_startup_log_lines
              (sample_host ∅ (OpenFails PermissionError) http_ok http_ok [])
              (boot noon ∅)) as (_ & Hw & Hr & _).
  split.
  - apply Hw. reflexivity.
  - intros H. apply Hr in H. vm_compute in H. discriminate H.
Defined.

(** *** The first minute of the loop *)

Lemma filter_none {A} (f : A -> bool) (l : list A) :
  (forall x, In x l -> f x = false) -> List.filter f l = [].
Proof.
  induction l as [|x l IH]; intros H; cbn; [reflexivity|].
  rewrite (H x (or_introl eq_refl)). apply IH. intros y Hy. apply H. now right.
Qed.

(** With no job due, [run_pending] does nothing. *)
Lemma run_pending_idle (h : host) (w : world) :
  (forall j, In j (w_jobs w) -> w_now w < j_next_run j) ->
  run_pending h w = (Ok tt, w).
Proof.
  intros Hdue. unfold run_pending. run_M.
  rewrite filter_none; [reflexivity|].
  intros j Hj. unfold should_run. apply Z.leb_gt. now apply Hdue.
Qed.

Lemma main_loop_idle (h : host) (n : nat) : forall w,
  (forall j, In j (w_jobs w) ->
     w_now w + Z.of_nat n * 10000000 < j_next_run j + 10000000) ->
  main_loop h n w = (Ok tt, slept n w).
Proof.
  induction n as [|n IH]; intros w Hdue; cbn [main_loop].
  - unfold slept. cbn. rewrite Z.add_0_r, app_nil_r. now destruct w.
  - unfold mbind, M_bind, bind.
    rewrite run_pending_idle by (intros j Hj; specialize (Hdue j Hj); lia).
    unfold sleep. run_M. rewrite IH.
    + unfold slept. cbn [w_now w_files w_jobs w_trace].
      f_equal. f_equal; [lia|]. now rewrite <- app_assoc.
    + cbn [w_now w_jobs]. intros j Hj. specialize (Hdue j Hj). lia.
Qed.

Lemma main_loop_add (h : host) (n m : nat) : forall w,
  main_loop h (n + m) w
  = match main_loop h n w with
    | (Ok _, w') => main_loop h m w'
    | (Raise e, w') => (Raise e, w')
    end.
Proof.
  induction n as [|n IH]; intros w; cbn [main_loop Nat.add]; [reflexivity|].
  unfold mbind, M_bind, bind.
  destruct (run_pending h w) as [[[]|e] w1]; [|reflexivity].
  destruct (sleep 10 w1) as [[[]|e] w2]; [|reflexivity].
  apply IH.
Qed.

Lemma run_pending_single (h : host) (w : world) (j : job) :
  List.filter (should_run (w_now w)) (w_jobs w) = [j] ->
  run_pending h w = bind (_run_job h j) (fun _ => ret tt) w.
Proof. intros H. unfold run_pending. run_M. now rewrite H. Qed.

Lemma run_job_quick_events (h : host) (j : job) (w : world) :
  j_func j = JobQuickSync ->
  exists evs,
    w_trace (snd (_run_job h j w)) = (w_trace w ++ evs)%list
    /\ opened evs = [cache_path "system_info"]
    /\ texts evs = [] /\ gets evs = [].
Proof.
  intros Hj. unfold _run_job. rewrite Hj. unfold call_job. run_M.
  destruct (job_quick_sync_events h w) as (evs & T & O & X & _ & G & _).
  exists evs. destruct (job_quick_sync h w) as [[[]|e] w1]; cbn in *; auto.
Qed.

Lemma opened_sleeps (n : nat) : opened (repeat (EvSleep 10) n) = []
  /\ texts (repeat (EvSleep 10) n) = [] /\ gets (repeat (EvSleep 10) n) = [].
Proof. induction n as [|n (IH1 & IH2 & IH3)]; cbn; auto. Qed.

(** X15.  After a start-up that completes, the first six turns of the loop
    do nothing but sleep 10 seconds each: no job is due during the first
    minute.  On the seventh turn, one minute after the registration, the
    quick sync runs - the cache file of system_info is opened, no full
    sync is started and the health check is not run. *)
Theorem main_first_minute (h : host) (w : world) :
  w_jobs w = [] -> fst (main_startup h w) = Ok tt ->
  let w1 := snd (main_startup h w) in
  (forall n, (n <= 6)%nat -> main h n w = (Ok tt, slept n w1))
  /\ exists evs,
       new_events w1 (snd (main_loop h 7 w1))
       = (repeat (EvSleep 10) 6 ++ evs)%list
       /\ opened evs = [cache_path "system_info"]
       /\ texts evs = [] /\ gets evs = [].
Proof.
  intros Hnone Hok. cbn zeta.
  pose proof (main_startup_jobs h w Hok) as Hjobs. rewrite Hnone in Hjobs.
  cbn [app List.length] in Hjobs.
  set (w1 := snd (main_startup h w)) in *.
  assert (Hidle : forall n, (n <= 6)%nat -> main_loop h n w1 = (Ok tt, slept n w1)).
  { intros n Hn. apply main_loop_idle. rewrite Hjobs. unfold minute_us.
    intros j [<-|[<-|[<-|[]]]]; cbn [j_next_run]; lia. }
  split.
  - intros n Hn. rewrite (main_after_startup h n w Hok). now apply Hidle.
  - change 7%nat with (6 + 1)%nat. rewrite main_loop_add, (Hidle 6%nat) by lia.
    cbn [main_loop]. unfold mbind, M_bind, mret, M_ret, bind.
    rewrite (run_pending_single h (slept 6 w1)
               (mkJob 0 1 JobQuickSync (w_now w1 + 1 * minute_us))).
    2:{ unfold slept. cbn [w_now w_jobs]. rewrite Hjobs. unfold should_run, minute_us.
        cbn [List.filter j_next_run].
        replace (w_now w1 + 1 * (60 * 1000000) <=? w_now w1 + Z.of_nat 6 * 10000000)
          with true by (symmetry; apply Z.leb_le; lia).
        replace (w_now w1 + 5 * (60 * 1000000) <=? w_now w1 + Z.of_nat 6 * 10000000)
          with false by (symmetry; apply Z.leb_gt; lia).
        replace (w_now w1 + 30 * (60 * 1000000) <=? w_now w1 + Z.of_nat 6 * 10000000)
          with false by (symmetry; apply Z.leb_gt; lia).
        reflexivity. }
    destruct (run_job_quick_events h
                (mkJob 0 1 JobQuickSync (w_now w1 + 1 * minute_us))
                (slept 6 w1) eq_refl) as (evs & T & O & X & G).
    unfold bind.
    destruct (_run_job h _ (slept 6 w1)) as [[[]|e] w7]; cbn [fst snd] in *.
    + exists (evs ++ [EvSleep 10])%list. unfold sleep, ret. run_M.
      split.
      * apply new_events_app. cbn [w_trace]. rewrite T. unfold slept.
        cbn [w_trace]. now rewrite <- !app_assoc.
      * unfold opened, texts, gets in *.
        rewrite !omap_app, List.filter_app, O, X, G. auto.
    + exists evs. split; [|auto].
      apply new_events_app. rewrite T. unfold slept. cbn [w_trace].
      now rewrite <- !app_assoc.
Qed.

Lemma main_first_minute_witness :
  let w1 := snd (main_startup empty_host (boot noon ∅)) in
  main empty_host 6 (boot noon ∅) = (Ok tt, slept 6 w1).
Proof.
  cbn zeta.
  destruct (main_first_minute empty_host (boot noon ∅) eq_refl) as (Hidle & _).
  - apply main_startup_ok, sample_host_healthy.
  - apply Hidle. lia.
Defined.

(** *** A cache that cannot be written *)

Lemma job_full_sync_unwritable (h : host) (w : world) (e : exn) :
  (forall t, fs_write h t (cache_path "system_info") = OpenFails e) ->
  fst (job_full_sync h w) = Raise e
  /\ w_trace (snd (job_full_sync h w))
     = (w_trace w ++ [sync_start; EvOpen (cache_path "system_info")])%list
  /\ w_jobs (snd (job_full_sync h w)) = w_jobs w.
Proof.
  intros Hwr. unfold job_full_sync. run_M.
  destruct (collect_system_info_world h
              (mkWorld (w_now w) (w_files w) (w_jobs w)
                 (w_trace w ++ [EvLog (MsgText "Starting full sync...")])%list))
    as (d & w1 & -> & T1 & J1). cbn [w_trace w_jobs] in T1, J1.
  rewrite push_context_run. cbn zeta. rewrite Hwr. cbn.
  rewrite T1, J1, <- app_assoc. auto.
Qed.

(** X16.  When the cache file of system_info cannot be opened for writing,
    [main] fails during start-up with the error of [open]: after the
    opening lines, the health check and the start of the full sync it
    tries to open the file, and that is all - nothing is posted, no job is
    registered, the loop is never entered. *)
Theorem main_unwritable_cache_stops_at_startup
    (h : host) (ticks : nat) (w : world) (e : exn) :
  (forall t, fs_write h t (cache_path "system_info") = OpenFails e) ->
  let out := main h ticks w in
  fst out = Raise e
  /\ w_jobs (snd out) = w_jobs w
  /\ exists m,
       new_events w (snd out)
       = (preamble h ++ [EvGet (health_url h) 5; EvLog m; sync_start;
                         EvOpen (cache_path "system_info")])%list.
Proof.
  intros Hwr. cbn zeta. unfold main, mbind, M_bind, bind.
  rewrite main_startup_run.
  destruct (check_server_total h (add_events (preamble h) w)) as (b & m & -> & _).
  cbn [snd].
  destruct (job_full_sync_unwritable h
              (add_events [EvGet (health_url h) 5; EvLog m]
                 (add_events (preamble h) w)) e Hwr) as (R & T & J).
  destruct (job_full_sync h _) as [[[]|x] w2]; cbn [fst snd] in *;
    [discriminate|].
  injection R as ->. split; [reflexivity|]. split; [exact J|].
  exists m. apply new_events_app. rewrite T. cbn [w_trace add_events].
  now rewrite <- !app_assoc.
Qed.

Lemma main_unwritable_cache_witness :
  let h := sample_host env_remote (OpenFails PermissionError) http_ok http_ok [] in
  fst (main h 100 (boot noon ∅)) = Raise PermissionError
  /\ w_jobs (snd (main h 100 (boot noon ∅))) = [].
Proof.
  cbn zeta.
  destruct (main_unwritable_cache_stops_at_startup
              (sample_host env_remote (OpenFails PermissionError) http_ok http_ok [])
              100 (boot noon ∅) PermissionError) as (R & J & _).
  - intros t. reflexivity.
  - split; [exact R|exact J].
Defined.

(** *** The configuration *)

Lemma lower_char_t (c : ascii) :
  lower_char c = "t"%char <-> c = "t"%char \/ c = "T"%char.
Proof.
  destruct c as [[] [] [] [] [] [] [] []]; vm_compute;
    split; intros H; try discriminate H; auto;
    destruct H as [H|H]; discriminate H.
Qed.

Lemma lower_char_r (c : ascii) :
  lower_char c = "r"%char <-> c = "r"%char \/ c = "R"%char.
Proof.
  destruct c as [[] [] [] [] [] [] [] []]; vm_compute;
    split; intros H; try discriminate H; auto;
    destruct H as [H|H]; discriminate H.
Qed.

Lemma lower_char_u (c : ascii) :
  lower_char c = "u"%char <-> c = "u"%char \/ c = "U"%char.
Proof.
  destruct c as [[] [] [] [] [] [] [] []]; vm_compute;
    split; intros H; try discriminate H; auto;
    destruct H as [H|H]; discriminate H.
Qed.

Lemma lower_char_e (c : ascii) :
  lower_char c = "e"%char <-> c = "e"%char \/ c = "E"%char.
Proof.
  destruct c as [[] [] [] [] [] [] [] []]; vm_compute;
    split; intros H; try discriminate H; auto;
    destruct H as [H|H]; discriminate H.
Qed.

Lemma lower_is_true (v : string) :
  lower v = "true" <->
  exists c1 c2 c3 c4,
    v = String c1 (String c2 (String c3 (String c4 "")))
    /\ (c1 = "t" \/ c1 = "T")%char /\ (c2 = "r" \/ c2 = "R")%char
    /\ (c3 = "u" \/ c3 = "U")%char /\ (c4 = "e" \/ c4 = "E")%char.
Proof.
  split.
  - destruct v as [|c1 [|c2 [|c3 [|c4 [|c5 v]]]]]; cbn; try discriminate.
    intros [= H1 H2 H3 H4].
    exists c1, c2, c3, c4. split; [reflexivity|].
    now rewrite <- lower_char_t, <- lower_char_r, <- lower_char_u, <- lower_char_e.
  - intros (c1 & c2 & c3 & c4 & -> & H1 & H2 & H3 & H4). cbn.
    apply lower_char_t in H1. apply lower_char_r in H2.
    apply lower_char_u in H3. apply lower_char_e in H4. congruence.
Qed.

(** X17.  Privacy mode is on exactly when KRYV_PRIVACY is set to one of the
    sixteen spellings of "true" in upper and lower case; unset, empty or
    set to anything else ("1", "yes", "on") it is off.  Remote delivery is
    on exactly when privacy mode is off and KRYV_CLIENT_ID is set to a
    non-empty string. *)
Theorem privacy_mode_spellings (h : host) :
  (PRIVACY_MODE h = true <->
   exists c1 c2 c3 c4,
     environ h !! "KRYV_PRIVACY"
     = Some (String c1 (String c2 (String c3 (String c4 ""))))
     /\ (c1 = "t" \/ c1 = "T")%char /\ (c2 = "r" \/ c2 = "R")%char
     /\ (c3 = "u" \/ c3 = "U")%char /\ (c4 = "e" \/ c4 = "E")%char)
  /\ (remote_enabled h = true <->
      PRIVACY_MODE h = false
      /\ exists id, environ h !! "KRYV_CLIENT_ID" = Some id /\ id <> "").
Proof.
  split.
  - unfold PRIVACY_MODE, getenv. rewrite String.eqb_eq.
    destruct (environ h !! "KRYV_PRIVACY") as [v|].
    + rewrite lower_is_true. split.
      * intros (c1 & c2 & c3 & c4 & -> & H). exists c1, c2, c3, c4. auto.
      * intros (c1 & c2 & c3 & c4 & [= ->] & H). exists c1, c2, c3, c4. auto.
    + split; [discriminate|]. intros (c1 & c2 & c3 & c4 & H & _). discriminate.
  - unfold remote_enabled, truthy, CLIENT_ID, getenv.
    destruct (PRIVACY_MODE h); cbn [negb andb].
    + split; [discriminate|]. intros [H _]. discriminate.
    + destruct (environ h !! "KRYV_CLIENT_ID") as [id|].
      * destruct (String.eqb_spec id "") as [->|Hid]; cbn.
        -- split; [discriminate|]. intros (_ & id & [= <-] & H). contradiction.
        -- split; [eauto|reflexivity].
      * cbn. split; [discriminate|]. intros (_ & id & H & _). discriminate.
Qed.

(** KRYV_PRIVACY=1 does not turn privacy mode on. *)
Example privacy_needs_the_word_true :
  PRIVACY_MODE
    (sample_host {[ "KRYV_CLIENT_ID" := "vm-1"; "KRYV_PRIVACY" := "1" ]}
       WriteOk http_ok http_ok []) = false
  /\ PRIVACY_MODE
       (sample_host {[ "KRYV_PRIVACY" := "TRUE" ]} WriteOk http_ok http_ok [])
     = true.
Proof. split; reflexivity. Qed.

Lemma privacy_mode_spellings_witness :
  PRIVACY_MODE
    (sample_host {[ "KRYV_CLIENT_ID" := "vm-1"; "KRYV_PRIVACY" := "TrUe" ]}
       WriteOk http_ok http_ok []) = true.
Proof.
  apply (proj1 (privacy_mode_spellings _)).
  exists "T"%char, "r"%char, "U"%char, "e"%char.
  split; [reflexivity|]. auto 10.
Defined.

Lemma job_quick_sync_witness :
  let h := sample_host env_private WriteOk http_ok http_ok [] in
  posts (new_events (boot noon ∅) (snd (job_quick_sync h (boot noon ∅)))) = [].
Proof.
  cbn zeta.
  destruct (job_quick_sync_is_one_push
              (sample_host env_private WriteOk http_ok http_ok []) (boot noon ∅))
    as (_ & _ & _ & _ & Hoff & _).
  apply Hoff. reflexivity.
Defined.
